(** * channel_tracker: posting ledger, reminder scheduler and window counts

    A shallow embedding of [channel_tracker.py] (the server-specific
    creator channel tracking bot) and the properties of its posting
    ledger ([on_message]), its reminder pass ([check_reminders]), its
    window query ([get_posts_in_period]) and its persistence layer
    ([load_data] / [save_data]).

    Modelling conventions.
    - A Python [dict] is an association list in insertion order
      ([dict K V]); the handlers iterate over [data['creators']] and the
      order decides what has been done when an exception leaves the loop.
    - [datetime] values are a number of microseconds on a linear time
      axis ([Z]); the calendar date of an instant is its quotient by the
      length of a day.  A ['%Y-%m-%d'] string is either the rendering of
      a date ([Ymd d], [d] the day number) or a string that [strptime]
      refuses ([Malformed s]).  Non-canonical renderings that [strptime]
      would accept (['2024-1-5']) are left out.
    - The handlers run in a monad that threads the contents of
      [DATA_FILE], the successive readings of [datetime.now()] and the
      list of effects on the chat platform, and that carries Python
      exceptions.  Every call of [datetime.now()] is a reading of its
      own: two readings of one invocation may fall on different days.
    - Within one invocation reading the file either works or fails, and
      so does writing it; a write that fails leaves the file as it was;
      what [json.dump] wrote is what [json.load] returns.
    - Sending to the channel of a message is taken to succeed; a direct
      message to a creator may be refused by the platform.  The
      permission checks of the command decorators belong to the
      framework and are left out.
    - Records read from the file have all the fields the code writes. *)

From Stdlib Require Import ZArith List String Ascii Bool Lia.
Import ListNotations.

Local Open Scope string_scope.
Local Open Scope list_scope.
Local Open Scope Z_scope.

(* ================================================================== *)
(** * The embedding *)

(* ================================================================== *)
(** ** Keys with a decidable equality *)

Class EqKey (K : Type) := {
  keqb : K -> K -> bool;
  keqb_eq : forall a b, keqb a b = true <-> a = b
}.

#[export] Instance EqKey_string : EqKey string :=
  {| keqb := String.eqb; keqb_eq := String.eqb_eq |}.

(* ================================================================== *)
(** ** Python dictionaries *)

Module Dict.
Section Ops.
Context {K V : Type} `{EqKey K}.

Definition t := list (K * V).

(** [d.get(k)]; [None] when the key is absent. *)
Fixpoint get (k : K) (d : t) : option V :=
  match d with
  | [] => None
  | (k', v) :: rest => if keqb k k' then Some v else get k rest
  end.

(** [k in d]. *)
Definition mem (k : K) (d : t) : bool :=
  match get k d with Some _ => true | None => false end.

(** [d[k] = v]: an existing key keeps its place, a new one goes last. *)
Fixpoint set (k : K) (v : V) (d : t) : t :=
  match d with
  | [] => [(k, v)]
  | (k', v') :: rest =>
      if keqb k k' then (k', v) :: rest else (k', v') :: set k v rest
  end.

(** [del d[k]]. *)
Fixpoint del (k : K) (d : t) : t :=
  match d with
  | [] => []
  | (k', v') :: rest => if keqb k k' then rest else (k', v') :: del k rest
  end.

Definition keys (d : t) : list K := map fst d.
End Ops.
Arguments t : clear implicits.
End Dict.

Abbreviation dict := Dict.t.

(* ================================================================== *)
(** ** Dates and instants *)

(** An instant, in microseconds. *)
Definition datetime := Z.

Definition us_per_day : Z := 86400000000.

(** A string in the place of a ['%Y-%m-%d'] date. *)
Inductive date_str :=
| Ymd (d : Z)
| Malformed (raw : string).

Definition date_str_eqb (a b : date_str) : bool :=
  match a, b with
  | Ymd x, Ymd y => Z.eqb x y
  | Malformed s, Malformed t => String.eqb s t
  | _, _ => false
  end.

#[export, refine] Instance EqKey_date_str : EqKey date_str :=
  {| keqb := date_str_eqb |}.
Proof.
  intros [x|s] [y|t]; simpl; split; intros Hx; try discriminate.
  - apply Z.eqb_eq in Hx. now subst.
  - inversion Hx. apply Z.eqb_refl.
  - apply String.eqb_eq in Hx. now subst.
  - inversion Hx. apply String.eqb_refl.
Defined.

(** The calendar date of an instant (its day number). *)
Definition date_of (t : datetime) : Z := t / us_per_day.

(** Microseconds elapsed since midnight. *)
Definition time_of_day (t : datetime) : Z := t mod us_per_day.

(** [t.strftime('%Y-%m-%d')]. *)
Definition strftime (t : datetime) : date_str := Ymd (date_of t).

(** [t - timedelta(days=n)]. *)
Definition minus_days (t : datetime) (n : Z) : datetime := t - n * us_per_day.

(** [(a - b).days]: Python normalises a [timedelta] with a floor. *)
Definition days_between (a b : datetime) : Z := (a - b) / us_per_day.

(** Midnight of day [d]. *)
Definition midnight (d : Z) : datetime := d * us_per_day.

(** Python truthiness of an optional string field: [None] and [''] are
    falsy. *)
Definition truthy (f : option date_str) : bool :=
  match f with
  | None => false
  | Some (Malformed "") => false
  | Some _ => true
  end.

(* ================================================================== *)
(** ** The persisted data model *)

(** An entry of [data['tracked_channels']], keyed by channel id. *)
Module Channel.
Record t := {
  creator_id : string;
  creator_name : string;
  guild_id : string;
  guild_name : string;
  setup_by : string;
  setup_date : date_str
}.
End Channel.

(** An entry of [data['creators']], keyed by ["{guild_id}_{creator_id}"]. *)
Module Creator.
Record t := {
  name : string;
  guild_id : string;
  guild_name : string;
  creator_id : string;
  channel_id : string;
  joined : date_str;
  total_posts : Z;
  current_streak : Z;
  best_streak : Z;
  last_posted : option date_str;
  last_reminded : option date_str
}.

Definition set_name (v : string) (c : t) : t :=
  {| name := v; guild_id := guild_id c; guild_name := guild_name c;
     creator_id := creator_id c; channel_id := channel_id c;
     joined := joined c; total_posts := total_posts c;
     current_streak := current_streak c; best_streak := best_streak c;
     last_posted := last_posted c; last_reminded := last_reminded c |}.

Definition set_total_posts (v : Z) (c : t) : t :=
  {| name := name c; guild_id := guild_id c; guild_name := guild_name c;
     creator_id := creator_id c; channel_id := channel_id c;
     joined := joined c; total_posts := v;
     current_streak := current_streak c; best_streak := best_streak c;
     last_posted := last_posted c; last_reminded := last_reminded c |}.

Definition set_current_streak (v : Z) (c : t) : t :=
  {| name := name c; guild_id := guild_id c; guild_name := guild_name c;
     creator_id := creator_id c; channel_id := channel_id c;
     joined := joined c; total_posts := total_posts c;
     current_streak := v; best_streak := best_streak c;
     last_posted := last_posted c; last_reminded := last_reminded c |}.

Definition set_best_streak (v : Z) (c : t) : t :=
  {| name := name c; guild_id := guild_id c; guild_name := guild_name c;
     creator_id := creator_id c; channel_id := channel_id c;
     joined := joined c; total_posts := total_posts c;
     current_streak := current_streak c; best_streak := v;
     last_posted := last_posted c; last_reminded := last_reminded c |}.

Definition set_last_posted (v : option date_str) (c : t) : t :=
  {| name := name c; guild_id := guild_id c; guild_name := guild_name c;
     creator_id := creator_id c; channel_id := channel_id c;
     joined := joined c; total_posts := total_posts c;
     current_streak := current_streak c; best_streak := best_streak c;
     last_posted := v; last_reminded := last_reminded c |}.

Definition set_last_reminded (v : option date_str) (c : t) : t :=
  {| name := name c; guild_id := guild_id c; guild_name := guild_name c;
     creator_id := creator_id c; channel_id := channel_id c;
     joined := joined c; total_posts := total_posts c;
     current_streak := current_streak c; best_streak := best_streak c;
     last_posted := last_posted c; last_reminded := v |}.

(** The record both [on_message] and [setup_channel] create for a new key. *)
Definition fresh (nm gid gname cid chid : string) (today : date_str) : t :=
  {| name := nm; guild_id := gid; guild_name := gname; creator_id := cid;
     channel_id := chid; joined := today; total_posts := 0;
     current_streak := 0; best_streak := 0;
     last_posted := None; last_reminded := None |}.
End Creator.

(** An entry of [data['posts'][unique_key]], keyed by date. *)
Module Post.
Record t := {
  timestamp : datetime;
  channel : string;
  guild : string
}.
End Post.

Record snapshot := {
  tracked_channels : dict string Channel.t;
  creators : dict string Creator.t;
  posts : dict string (dict date_str Post.t)
}.

Definition set_tracked_channels (v : dict string Channel.t) (d : snapshot) : snapshot :=
  {| tracked_channels := v; creators := creators d; posts := posts d |}.

Definition set_creators (v : dict string Creator.t) (d : snapshot) : snapshot :=
  {| tracked_channels := tracked_channels d; creators := v; posts := posts d |}.

Definition set_posts (v : dict string (dict date_str Post.t)) (d : snapshot) : snapshot :=
  {| tracked_channels := tracked_channels d; creators := creators d; posts := v |}.

(** What [load_data] returns when [DATA_FILE] cannot be read. *)
Definition empty_data : snapshot :=
  {| tracked_channels := []; creators := []; posts := [] |}.

(** [f"{guild_id}_{creator_id}"]. *)
Definition make_key (guild_id creator_id : string) : string :=
  (guild_id ++ "_" ++ creator_id)%string.

(* ================================================================== *)
(** ** What the chat platform hands to the handlers *)

Module Guild.
Record t := { id : string; name : string }.
End Guild.

Module Message.
Record t := {
  author_bot : bool;             (* message.author.bot *)
  guild : option Guild.t;        (* message.guild, None in a DM *)
  channel_id : string;           (* str(message.channel.id) *)
  channel_name : string;         (* message.channel.name *)
  content : string;              (* message.content *)
  created_at : datetime          (* the platform's timestamp of the message *)
}.

Definition set_created_at (v : datetime) (m : t) : t :=
  {| author_bot := author_bot m; guild := guild m; channel_id := channel_id m;
     channel_name := channel_name m; content := content m; created_at := v |}.
End Message.

Module Ctx.
Record t := {
  channel_id : string;           (* str(ctx.channel.id) *)
  guild : Guild.t;               (* ctx.guild *)
  author_id : string             (* str(ctx.author.id) *)
}.
End Ctx.

Module Member.
Record t := { id : string; name : string }.
End Member.

(* ================================================================== *)
(** ** Effects *)

Inductive exn :=
| IOError         (* open / json.load / json.dump failed *)
| ValueError      (* datetime.strptime refused its argument *)
| KeyError        (* subscript of a missing key *)
| HTTPException.  (* the platform refused fetch_user / send *)

Inductive res (A : Type) :=
| Ret (a : A)
| Raise (e : exn).
Arguments Ret {A} a.
Arguments Raise {A} e.

(** What a handler does to the outside, most recent first. *)
Inductive event :=
| Load (ok : bool)                              (* open(DATA_FILE, 'r') *)
| Save (d : snapshot)                           (* json.dump(d, f) *)
| AddReaction                                   (* message.add_reaction *)
| PostTracked (guild_name : string) (streak week month : Z)
| AlreadyTracked                                (* message.reply *)
| ProcessCommands (content : string)            (* bot.process_commands *)
| Reminder (unique_key creator_id : string) (days_since_post : Z)
           (guild_name : string) (last_post : date_str) (delivered : bool)
| ChannelAlreadySetup (creator_name : string)
| SetupComplete (creator_name guild_name : string)
| NotTracked
| TrackingRemoved (creator_name : string).

(** The surroundings of one handler invocation. *)
Record env := {
  clock : nat -> datetime;       (* the n-th reading of datetime.now() *)
  read_fails : bool;             (* reading DATA_FILE raises *)
  write_fails : bool;            (* opening DATA_FILE for writing raises *)
  dm_ok : string -> bool         (* whether this user id can be sent a DM *)
}.

Record world := {
  file : option snapshot;        (* DATA_FILE; None: missing or not JSON *)
  ticks : nat;                   (* readings of the clock so far *)
  log : list event
}.

Definition M (A : Type) : Type := env -> world -> res A * world.

Definition ret {A} (a : A) : M A := fun _ w => (Ret a, w).

Definition raise {A} (e : exn) : M A := fun _ w => (Raise e, w).

Definition bind {A B} (m : M A) (k : A -> M B) : M B :=
  fun e w =>
    match m e w with
    | (Ret a, w') => k a e w'
    | (Raise x, w') => (Raise x, w')
    end.

(** [try: m except: h] with a bare [except]. *)
Definition catch {A} (m : M A) (h : exn -> M A) : M A :=
  fun e w =>
    match m e w with
    | (Ret a, w') => (Ret a, w')
    | (Raise x, w') => h x e w'
    end.

Declare Scope py_scope.
Delimit Scope py_scope with py.
Notation "x <- m ;; k" := (bind m (fun x => k))
  (at level 61, m at next level, right associativity) : py_scope.
Notation "m ;; k" := (bind m (fun _ => k))
  (at level 61, right associativity) : py_scope.
Local Open Scope py_scope.

(** Lifting of a pure computation that may raise. *)
Definition lift {A} (r : res A) : M A := fun _ w => (r, w).

Definition emit (ev : event) : M unit :=
  fun _ w => (Ret tt, {| file := file w; ticks := ticks w; log := ev :: log w |}).

(** [datetime.now()]. *)
Definition datetime_now : M datetime :=
  fun e w => (Ret (clock e (ticks w)),
              {| file := file w; ticks := S (ticks w); log := log w |}).

(** [datetime.strptime(s, '%Y-%m-%d')]. *)
Definition strptime (s : date_str) : res datetime :=
  match s with
  | Ymd d => Ret (midnight d)
  | Malformed _ => Raise ValueError
  end.

(** [d[k]]. *)
Definition subscript {K V} `{EqKey K} (k : K) (d : dict K V) : res V :=
  match Dict.get k d with
  | Some v => Ret v
  | None => Raise KeyError
  end.

(* ================================================================== *)
(** ** Data management (lines 29-44) *)

(** The body of the [try] in [load_data]. *)
Definition read_file : M snapshot :=
  fun e w =>
    match (if read_fails e then None else file w) with
    | Some d => (Ret d, {| file := file w; ticks := ticks w; log := Load true :: log w |})
    | None => (Raise IOError, {| file := file w; ticks := ticks w; log := Load false :: log w |})
    end.

Definition load_data : M snapshot :=
  catch read_file (fun _ => ret empty_data).

Definition save_data (d : snapshot) : M unit :=
  fun e w =>
    if write_fails e then (Raise IOError, w)
    else (Ret tt, {| file := Some d; ticks := ticks w; log := Save d :: log w |}).

(* ================================================================== *)
(** ** Tracking functions (lines 317-330) *)

(** The loop of [get_posts_in_period] over the dates of a post log. *)
Fixpoint count_since (cutoff : datetime) (dates : list date_str) (count : Z)
  : res Z :=
  match dates with
  | [] => Ret count
  | date_str :: rest =>
      match strptime date_str with
      | Ret post_date =>
          count_since cutoff rest
            (if cutoff <=? post_date then count + 1 else count)
      | Raise x => Raise x
      end
  end.

Definition get_posts_in_period (unique_key : string) (days : Z) : M Z :=
  data <- load_data ;;
  match Dict.get unique_key (posts data) with
  | Some plog =>
      now <- datetime_now ;;
      let cutoff := minus_days now days in
      lift (count_since cutoff (Dict.keys plog) 0)
  | None => ret 0
  end.

(* ================================================================== *)
(** ** The message handler (lines 68-175) *)

Definition to_lower (c : ascii) : ascii :=
  let n := nat_of_ascii c in
  if (Nat.leb 65 n && Nat.leb n 90)%bool then ascii_of_nat (n + 32) else c.

(** [s.lower()], on ASCII letters. *)
Fixpoint lower (s : string) : string :=
  match s with
  | EmptyString => EmptyString
  | String c rest => String (to_lower c) (lower rest)
  end.

(** [p in s] on strings. *)
Fixpoint is_infix (p s : string) : bool :=
  (String.prefix p s ||
   match s with
   | EmptyString => false
   | String _ rest => is_infix p rest
   end)%bool.

Definition posted_keywords : list string :=
  ["posted"; "done"; "uploaded"; "posted for today"; "posted today"].

(** [any(keyword in message.content.lower() for keyword in posted_keywords)]. *)
Definition has_posted_keyword (content : string) : bool :=
  existsb (fun keyword => is_infix keyword (lower content)) posted_keywords.

(** The streak and best-streak update of lines 137-148, on the creator's
    record; [yesterday_in] is [yesterday in data['posts'][unique_key]]. *)
Definition update_streak (yesterday_in : bool) (c : Creator.t) : Creator.t :=
  let c :=
    if yesterday_in
    then Creator.set_current_streak (Creator.current_streak c + 1) c
    else Creator.set_current_streak 1 c in
  let current := Creator.current_streak c in
  let best := Creator.best_streak c in
  if best <? current then Creator.set_best_streak current c else c.

(** Lines 104-118: initialise the creator's record if the key is new. *)
Definition ensure_creator (unique_key : string) (c : Creator.t)
    (data : snapshot) : snapshot :=
  if negb (Dict.mem unique_key (creators data))
  then set_creators (Dict.set unique_key c (creators data)) data
  else data.

(** Lines 121-122: initialise the post log if the key is new. *)
Definition ensure_log (unique_key : string) (data : snapshot) : snapshot :=
  if negb (Dict.mem unique_key (posts data))
  then set_posts (Dict.set unique_key [] (posts data)) data
  else data.

(** Lines 155-168: the confirmation embed with the window counts. *)
Definition send_confirmation (unique_key guild_name : string) (current : Z)
  : M unit :=
  week_count <- get_posts_in_period unique_key 7 ;;
  month_count <- get_posts_in_period unique_key 30 ;;
  emit (PostTracked guild_name current week_count month_count).

(** Lines 93-172: a message with a keyword in a tracked channel. *)
Definition track_post (message : Message.t) (g : Guild.t)
    (channel_data : Channel.t) (data : snapshot) : M unit :=
  let guild_id := Guild.id g in
  let channel_id := Message.channel_id message in
  let creator_id := Channel.creator_id channel_data in
  let creator_name := Channel.creator_name channel_data in
  let unique_key := make_key guild_id creator_id in
  now0 <- datetime_now ;;
  let today := strftime now0 in
  timestamp <- datetime_now ;;
  let data :=
    ensure_creator unique_key
      (Creator.fresh creator_name guild_id (Guild.name g) creator_id
         channel_id today) data in
  let data := ensure_log unique_key data in
  plog <- lift (subscript unique_key (posts data)) ;;
  if negb (Dict.mem today plog) then
    let plog :=
      Dict.set today
        {| Post.timestamp := timestamp;
           Post.channel := Message.channel_name message;
           Post.guild := Guild.name g |} plog in
    let data := set_posts (Dict.set unique_key plog (posts data)) data in
    c <- lift (subscript unique_key (creators data)) ;;
    let c := Creator.set_total_posts (Creator.total_posts c + 1) c in
    let c := Creator.set_last_posted (Some today) c in
    let c := Creator.set_name creator_name c in
    now2 <- datetime_now ;;
    let yesterday := strftime (minus_days now2 1) in
    let c := update_streak (Dict.mem yesterday plog) c in
    let current := Creator.current_streak c in
    let data := set_creators (Dict.set unique_key c (creators data)) data in
    save_data data ;;
    emit AddReaction ;;
    send_confirmation unique_key (Guild.name g) current
  else
    emit AlreadyTracked.

Definition on_message (message : Message.t) : M unit :=
  if Message.author_bot message then ret tt
  else
    match Message.guild message with
    | None => ret tt
    | Some g =>
        data <- load_data ;;
        match Dict.get (Message.channel_id message) (tracked_channels data) with
        | Some channel_data =>
            if has_posted_keyword (Message.content message)
            then track_post message g channel_data data
            else ret tt
        | None => ret tt
        end ;;
        emit (ProcessCommands (Message.content message))
    end.

(* ================================================================== *)
(** ** Setup commands (lines 179-273) *)

Definition setup_channel (ctx : Ctx.t) (member : Member.t) : M unit :=
  data <- load_data ;;
  let channel_id := Ctx.channel_id ctx in
  let creator_id := Member.id member in
  let guild_id := Guild.id (Ctx.guild ctx) in
  match Dict.get channel_id (tracked_channels data) with
  | Some reg => emit (ChannelAlreadySetup (Channel.creator_name reg))
  | None =>
      setup_now <- datetime_now ;;
      let data :=
        set_tracked_channels
          (Dict.set channel_id
             {| Channel.creator_id := creator_id;
                Channel.creator_name := Member.name member;
                Channel.guild_id := guild_id;
                Channel.guild_name := Guild.name (Ctx.guild ctx);
                Channel.setup_by := Ctx.author_id ctx;
                Channel.setup_date := strftime setup_now |}
             (tracked_channels data)) data in
      let unique_key := make_key guild_id creator_id in
      data <- (if negb (Dict.mem unique_key (creators data)) then
                 joined_now <- datetime_now ;;
                 ret (set_creators
                        (Dict.set unique_key
                           (Creator.fresh (Member.name member) guild_id
                              (Guild.name (Ctx.guild ctx)) creator_id
                              channel_id (strftime joined_now))
                           (creators data)) data)
               else ret data) ;;
      save_data data ;;
      emit (SetupComplete (Member.name member) (Guild.name (Ctx.guild ctx)))
  end.

Definition unsetup_channel (ctx : Ctx.t) : M unit :=
  data <- load_data ;;
  let channel_id := Ctx.channel_id ctx in
  match Dict.get channel_id (tracked_channels data) with
  | None => emit NotTracked
  | Some reg =>
      let creator_name := Channel.creator_name reg in
      let data :=
        set_tracked_channels (Dict.del channel_id (tracked_channels data)) data in
      save_data data ;;
      emit (TrackingRemoved creator_name)
  end.

(* ================================================================== *)
(** ** The reminder pass (lines 334-395) *)

Definition REMINDER_DAYS : Z := 2.

(** [bot.fetch_user] followed by [user.send(embed=embed)]. *)
Definition send_reminder (unique_key : string) (creator_info : Creator.t)
    (days_since_post : Z) (last_posted : date_str) : M unit :=
  fun e w =>
    let delivered := dm_ok e (Creator.creator_id creator_info) in
    let w' := {| file := file w; ticks := ticks w;
                 log := Reminder unique_key (Creator.creator_id creator_info)
                          days_since_post (Creator.guild_name creator_info)
                          last_posted delivered :: log w |} in
    if delivered then (Ret tt, w') else (Raise HTTPException, w').

(** The [try] block of lines 357-395.  The assignment to
    [data[...]['last_reminded']] stays in memory when [save_data] raises. *)
Definition remind (unique_key : string) (creator_info : Creator.t)
    (days_since_post : Z) (last_posted : date_str) (data : snapshot) : M snapshot :=
  catch
    (send_reminder unique_key creator_info days_since_post last_posted ;;
     now <- datetime_now ;;
     c <- lift (subscript unique_key (creators data)) ;;
     let data' :=
       set_creators
         (Dict.set unique_key
            (Creator.set_last_reminded (Some (strftime now)) c)
            (creators data)) data in
     catch (save_data data' ;; ret data') (fun _ => ret data'))
    (fun _ => ret data).

(** One iteration of the loop over [data['creators'].items()]. *)
Definition check_creator (unique_key : string) (creator_info : Creator.t)
    (data : snapshot) : M snapshot :=
  match Creator.last_posted creator_info with
  | Some last_posted =>
      if truthy (Some last_posted) then
        now <- datetime_now ;;
        posted_at <- lift (strptime last_posted) ;;
        let days_since_post := days_between now posted_at in
        if REMINDER_DAYS <=? days_since_post then
          should_remind <-
            match Creator.last_reminded creator_info with
            | Some last_reminded =>
                if truthy (Some last_reminded) then
                  now' <- datetime_now ;;
                  reminded_at <- lift (strptime last_reminded) ;;
                  let days_since_reminder := days_between now' reminded_at in
                  ret (negb (days_since_reminder <? REMINDER_DAYS))
                else ret true
            | None => ret true
            end ;;
          if (should_remind : bool)
          then remind unique_key creator_info days_since_post last_posted data
          else ret data
        else ret data
      else ret data
  | None => ret data
  end.

Fixpoint reminder_loop (items : list (string * Creator.t)) (data : snapshot)
  : M unit :=
  match items with
  | [] => ret tt
  | (unique_key, creator_info) :: rest =>
      data' <- check_creator unique_key creator_info data ;;
      reminder_loop rest data'
  end.

Definition check_reminders : M unit :=
  data <- load_data ;;
  reminder_loop (creators data) data.

(* ================================================================== *)
(** ** Sequences of operations *)

(** The handlers the platform and the scheduler can invoke. *)
Inductive op :=
| OnMessage (message : Message.t)
| SetupChannel (ctx : Ctx.t) (member : Member.t)
| UnsetupChannel (ctx : Ctx.t)
| CheckReminders
| GetPostsInPeriod (unique_key : string) (days : Z).

Definition step (o : op) : M unit :=
  match o with
  | OnMessage message => on_message message
  | SetupChannel ctx member => setup_channel ctx member
  | UnsetupChannel ctx => unsetup_channel ctx
  | CheckReminders => check_reminders
  | GetPostsInPeriod unique_key days =>
      get_posts_in_period unique_key days ;; ret tt
  end.

(** The world after an operation, whether it returned or raised. *)
Definition after (o : op) (e : env) (w : world) : world := snd (step o e w).

(** The bot starts without a data file. *)
Definition initial_world : world := {| file := None; ticks := 0; log := [] |}.

(** Worlds the bot can be in, whatever the surroundings do. *)
Inductive reachable : world -> Prop :=
| reachable_initial : reachable initial_world
| reachable_step o e w : reachable w -> reachable (after o e w).

(** A handler invocation that does not straddle midnight: every reading of
    the clock falls on day [D]. *)
Definition on_day (D : Z) (e : env) : Prop :=
  forall n, date_of (clock e n) = D.


(** The post log of a key, empty when the key has none. *)
Definition post_log (unique_key : string) (d : snapshot) : dict date_str Post.t :=
  match Dict.get unique_key (posts d) with
  | Some plog => plog
  | None => []
  end.

(* ================================================================== *)
(** * Notions used in the statements *)

(* ================================================================== *)
(** ** Persistence primitives *)

Definition logged (ev : event) (w : world) : world :=
  {| file := file w; ticks := ticks w; log := ev :: log w |}.

Definition ticked (n : nat) (w : world) : world :=
  {| file := file w; ticks := (n + ticks w)%nat; log := log w |}.

(* ================================================================== *)
(** ** What a credited event writes *)

(** The record of a key, [c] when the key has none. *)
Definition record_of (unique_key : string) (c : Creator.t) (d : snapshot)
  : Creator.t :=
  match Dict.get unique_key (creators d) with
  | Some c0 => c0
  | None => c
  end.

(** The post log [track_post] writes for a first event of the day. *)
Definition credited_log (message : Message.t) (g : Guild.t)
    (channel_data : Channel.t) (d : snapshot) (now0 timestamp : datetime)
  : dict date_str Post.t :=
  Dict.set (strftime now0)
    {| Post.timestamp := timestamp;
       Post.channel := Message.channel_name message;
       Post.guild := Guild.name g |}
    (post_log (make_key (Guild.id g) (Channel.creator_id channel_data)) d).

(** The creator's record [track_post] writes for a first event of the
    day. *)
Definition credited_record (message : Message.t) (g : Guild.t)
    (channel_data : Channel.t) (d : snapshot) (now0 timestamp now2 : datetime)
  : Creator.t :=
  let creator_id := Channel.creator_id channel_data in
  let creator_name := Channel.creator_name channel_data in
  let today := strftime now0 in
  let c0 :=
    record_of (make_key (Guild.id g) creator_id)
      (Creator.fresh creator_name (Guild.id g) (Guild.name g) creator_id
         (Message.channel_id message) today) d in
  update_streak
    (Dict.mem (strftime (minus_days now2 1))
       (credited_log message g channel_data d now0 timestamp))
    (Creator.set_name creator_name
       (Creator.set_last_posted (Some today)
          (Creator.set_total_posts (Creator.total_posts c0 + 1) c0))).

(** The snapshot [track_post] saves for a first event of the day, from
    the snapshot loaded and the three readings of the clock. *)
Definition credited (message : Message.t) (g : Guild.t)
    (channel_data : Channel.t) (d : snapshot) (now0 timestamp now2 : datetime)
  : snapshot :=
  let unique_key := make_key (Guild.id g) (Channel.creator_id channel_data) in
  {| tracked_channels := tracked_channels d;
     creators :=
       Dict.set unique_key
         (credited_record message g channel_data d now0 timestamp now2)
         (creators d);
     posts :=
       Dict.set unique_key
         (credited_log message g channel_data d now0 timestamp) (posts d) |}.

(* ================================================================== *)
(** ** Computations that leave the data file alone *)

Definition keeps_file {A} (m : M A) : Prop :=
  forall e w, file (snd (m e w)) = file w.

(** The snapshot a handler works on: the file's, or the empty one when
    the file cannot be read. *)
Definition loaded (e : env) (w : world) : snapshot :=
  match (if read_fails e then None else file w) with
  | Some d => d
  | None => empty_data
  end.

(** The snapshot [setup_channel] saves for a channel that was not
    tracked. *)
Definition registered (ctx : Ctx.t) (member : Member.t) (d : snapshot)
    (setup_now joined_now : datetime) : snapshot :=
  let guild_id := Guild.id (Ctx.guild ctx) in
  ensure_creator (make_key guild_id (Member.id member))
    (Creator.fresh (Member.name member) guild_id (Guild.name (Ctx.guild ctx))
       (Member.id member) (Ctx.channel_id ctx) (strftime joined_now))
    (set_tracked_channels
       (Dict.set (Ctx.channel_id ctx)
          {| Channel.creator_id := Member.id member;
             Channel.creator_name := Member.name member;
             Channel.guild_id := guild_id;
             Channel.guild_name := Guild.name (Ctx.guild ctx);
             Channel.setup_by := Ctx.author_id ctx;
             Channel.setup_date := strftime setup_now |}
          (tracked_channels d)) d).

(* ================================================================== *)
(** ** One iteration of the reminder loop *)

(** What lines 340-354 decide for a creator, from the reading of the clock
    compared with [last_posted] and the one compared with [last_reminded]:
    no reminder, a reminder with its day count, or the exception of
    [strptime]. *)
Definition decide_reminder (now now' : datetime) (c : Creator.t)
  : res (option (Z * date_str)) :=
  match Creator.last_posted c with
  | Some last_posted =>
      if truthy (Some last_posted) then
        match strptime last_posted with
        | Raise x => Raise x
        | Ret posted_at =>
            let days_since_post := days_between now posted_at in
            if REMINDER_DAYS <=? days_since_post then
              match Creator.last_reminded c with
              | Some last_reminded =>
                  if truthy (Some last_reminded) then
                    match strptime last_reminded with
                    | Raise x => Raise x
                    | Ret reminded_at =>
                        if days_between now' reminded_at <? REMINDER_DAYS
                        then Ret None
                        else Ret (Some (days_since_post, last_posted))
                    end
                  else Ret (Some (days_since_post, last_posted))
              | None => Ret (Some (days_since_post, last_posted))
              end
            else Ret None
        end
      else Ret None
  | None => Ret None
  end.

(** The decision when every reading of the clock falls on day [D]. *)
Definition verdict (D : Z) (c : Creator.t) : res (option (Z * date_str)) :=
  decide_reminder (midnight D) (midnight D) c.

(** The snapshot with the key's [last_reminded] set. *)
Definition marked (unique_key : string) (today : date_str) (c : Creator.t)
    (d : snapshot) : snapshot :=
  set_creators
    (Dict.set unique_key (Creator.set_last_reminded (Some today) c)
       (creators d)) d.

(** [c'] is [c] but for its [last_reminded]. *)
Definition reminded_only (c c' : Creator.t) : Prop :=
  c' = Creator.set_last_reminded (Creator.last_reminded c') c.

(** [d'] is [d] but for the [last_reminded] of some creators. *)
Definition marks (d d' : snapshot) : Prop :=
  tracked_channels d' = tracked_channels d
  /\ posts d' = posts d
  /\ Forall2 (fun kc kc' => fst kc' = fst kc /\ reminded_only (snd kc) (snd kc'))
       (creators d) (creators d').

(** What an operation can put in the place of the snapshot [d] it loaded. *)
Inductive writes (e : env) (d : snapshot) : snapshot -> Prop :=
| writes_credit message g channel_data n :
    Dict.mem (strftime (clock e n))
      (post_log (make_key (Guild.id g) (Channel.creator_id channel_data)) d)
      = false ->
    writes e d (credited message g channel_data d (clock e n) (clock e (S n))
                  (clock e (S (S n))))
| writes_setup ctx member n :
    writes e d (registered ctx member d (clock e n) (clock e (S n)))
| writes_unsetup ctx :
    writes e d (set_tracked_channels
                  (Dict.del (Ctx.channel_id ctx) (tracked_channels d)) d)
| writes_marks d' : marks d d' -> writes e d d'.

(* ================================================================== *)
(** ** The best streak *)




(* ================================================================== *)
(** ** Runs of consecutive dates *)




(* ================================================================== *)
(** ** The streak follows the post log *)


(* ================================================================== *)
(** ** The reminder pass on a given day *)

Definition is_reminder_for (k : string) (ev : event) : bool :=
  match ev with
  | Reminder k' _ _ _ _ _ => String.eqb k' k
  | _ => false
  end.

(** Number of reminders sent to the record [k], delivered or not. *)
Definition reminders_for (k : string) (l : list event) : nat :=
  List.length (filter (is_reminder_for k) l).

(** Reminders for [k] that a pass over [items] sends on day [D]: the pass
    stops at the first record whose dates do not parse. *)
Fixpoint expected (k : string) (D : Z) (items : list (string * Creator.t))
  : nat :=
  match items with
  | [] => O
  | (key, c) :: rest =>
      match verdict D c with
      | Raise _ => O
      | Ret None => expected k D rest
      | Ret (Some _) =>
          ((if String.eqb key k then 1 else 0) + expected k D rest)%nat
      end
  end.

(** How a pass over [items] ends on day [D]. *)
Fixpoint pass_result (D : Z) (items : list (string * Creator.t)) : res unit :=
  match items with
  | [] => Ret tt
  | (key, c) :: rest =>
      match verdict D c with
      | Raise x => Raise x
      | Ret _ => pass_result D rest
      end
  end.

(* ================================================================== *)
(** ** Stored dates that do not parse *)

(** A field that holds a non-empty string which is not a date. *)
Definition unparsable (f : option date_str) : Prop :=
  exists s, f = Some (Malformed s) /\ s <> "".

(** The dates of the record that the pass will hand to [strptime] on day
    [D] include one that does not parse. *)
Definition poisoned (D : Z) (c : Creator.t) : Prop :=
  unparsable (Creator.last_posted c)
  \/ exists p, Creator.last_posted c = Some (Ymd p)
               /\ REMINDER_DAYS <= D - p
               /\ unparsable (Creator.last_reminded c).

(* ================================================================== *)
(** ** What a reminder leaves in the data file *)

(** The record after a pass on day [D]: marked when the record was due and
    the reminder was delivered, as before otherwise. *)
Definition reminded (D : Z) (e : env) (c : Creator.t) : Creator.t :=
  match verdict D c with
  | Ret (Some _) =>
      if dm_ok e (Creator.creator_id c)
      then Creator.set_last_reminded (Some (Ymd D)) c
      else c
  | _ => c
  end.

(* ================================================================== *)
(** ** Window counts *)

Definition is_date_from (lo : Z) (s : date_str) : bool :=
  match s with
  | Ymd x => lo <=? x
  | Malformed _ => false
  end.


(** Number of dates of the log on or after day [lo]. *)
Definition dates_from (lo : Z) (plog : dict date_str Post.t) : Z :=
  Z.of_nat (List.length (filter (is_date_from lo) (Dict.keys plog))).




(** The earliest date [get_posts_in_period] counts: a date is counted when
    its midnight is not before [now - days]. *)
Definition first_day_counted (now : datetime) (days : Z) : Z :=
  if time_of_day now =? 0 then date_of now - days else date_of now - days + 1.

(* ================================================================== *)
(** ** Failures of the persistence layer *)



(* ================================================================== *)
(** * Sample data *)

(* ================================================================== *)
(** ** A server, a creator and a week of posts *)

Definition noon (D : Z) : datetime := D * us_per_day + 43200000000.

(** Surroundings in which every reading of the clock is noon of day [D]. *)
Definition at_noon (D : Z) (reads_fail writes_fail dm : bool) : env :=
  {| clock := fun _ => noon D; read_fails := reads_fail;
     write_fails := writes_fail; dm_ok := fun _ => dm |}.

(** Noon of day [D], everything working. *)
Definition calm (D : Z) : env := at_noon D false false true.

Definition creators_guild : Guild.t := {| Guild.id := "10"; Guild.name := "Creators" |}.

Definition ann : Member.t := {| Member.id := "77"; Member.name := "ann" |}.

Definition bob : Member.t := {| Member.id := "78"; Member.name := "bob" |}.

Definition ann_channel : Ctx.t :=
  {| Ctx.channel_id := "500"; Ctx.guild := creators_guild; Ctx.author_id := "1" |}.

Definition bob_channel : Ctx.t :=
  {| Ctx.channel_id := "501"; Ctx.guild := creators_guild; Ctx.author_id := "1" |}.

(** "Posted!" typed by ann in her channel; the platform stamped it at
    noon of day [sent]. *)
Definition ann_posted (sent : Z) : Message.t :=
  {| Message.author_bot := false; Message.guild := Some creators_guild;
     Message.channel_id := "500"; Message.channel_name := "ann-tiktok";
     Message.content := "Posted!"; Message.created_at := noon sent |}.

Definition from_a_bot : Message.t :=
  {| Message.author_bot := true; Message.guild := Some creators_guild;
     Message.channel_id := "500"; Message.channel_name := "ann-tiktok";
     Message.content := "posted"; Message.created_at := noon 101 |}.

Definition direct_message : Message.t :=
  {| Message.author_bot := false; Message.guild := None;
     Message.channel_id := "900"; Message.channel_name := "";
     Message.content := "posted"; Message.created_at := noon 101 |}.

(** Setup on day 100, then posts on days 101, 102, 103 and 105. *)
Definition world_100 : world := after (SetupChannel ann_channel ann) (calm 100) initial_world.
Definition world_101 : world := after (OnMessage (ann_posted 101)) (calm 101) world_100.
Definition world_102 : world := after (OnMessage (ann_posted 102)) (calm 102) world_101.
Definition world_103 : world := after (OnMessage (ann_posted 103)) (calm 103) world_102.
Definition world_105 : world := after (OnMessage (ann_posted 105)) (calm 105) world_103.

(** The snapshot in the data file. *)
Definition stored (w : world) : snapshot :=
  match file w with
  | Some d => d
  | None => empty_data
  end.

Definition ann_registration : Channel.t :=
  {| Channel.creator_id := "77"; Channel.creator_name := "ann";
     Channel.guild_id := "10"; Channel.guild_name := "Creators";
     Channel.setup_by := "1"; Channel.setup_date := Ymd 100 |}.

Definition ann_on_day_105 : Creator.t :=
  {| Creator.name := "ann"; Creator.guild_id := "10";
     Creator.guild_name := "Creators"; Creator.creator_id := "77";
     Creator.channel_id := "500"; Creator.joined := Ymd 100;
     Creator.total_posts := 4; Creator.current_streak := 1;
     Creator.best_streak := 3; Creator.last_posted := Some (Ymd 105);
     Creator.last_reminded := None |}.

Definition ann_entry_105 : Post.t :=
  {| Post.timestamp := noon 105; Post.channel := "ann-tiktok";
     Post.guild := "Creators" |}.

(* ================================================================== *)
(** ** A pass over several creators *)

(** A record of the server with the given dates. *)
Definition member_record (name id : string) (last_posted last_reminded : option date_str)
  : Creator.t :=
  {| Creator.name := name; Creator.guild_id := "10";
     Creator.guild_name := "Creators"; Creator.creator_id := id;
     Creator.channel_id := "500"; Creator.joined := Ymd 100;
     Creator.total_posts := 1; Creator.current_streak := 1;
     Creator.best_streak := 1; Creator.last_posted := last_posted;
     Creator.last_reminded := last_reminded |}.



Definition lapsed : Creator.t := member_record "eve" "3" (Some (Ymd 105)) None.

Definition garbled : Creator.t :=
  member_record "fay" "4" (Some (Malformed "yesterday")) None.

Definition holding (cs : dict string Creator.t) : world :=
  {| file := Some {| tracked_channels := []; creators := cs; posts := [] |};
     ticks := 0; log := [] |}.


Definition garbled_first : dict string Creator.t :=
  [("10_4", garbled); ("10_3", lapsed)].

(** The same two records with the date that does not parse left out. *)
Definition absent_first : dict string Creator.t :=
  [("10_4", member_record "fay" "4" None None); ("10_3", lapsed)].

(* ================================================================== *)
(** ** Well-kept snapshots *)

(** The association lists of the snapshot are dictionaries: no key
    twice. *)
Definition distinct_keys (d : snapshot) : Prop :=
  NoDup (Dict.keys (tracked_channels d))
  /\ NoDup (Dict.keys (creators d))
  /\ NoDup (Dict.keys (posts d))
  /\ forall k, NoDup (Dict.keys (post_log k d)).

(** The counters of every record agree with its post log: the dates of
    the log are dates, a key without a record has no log, and
    [0 <= current_streak <= best_streak <= total_posts], the number of
    entries of the log. *)
Definition counters_ok (d : snapshot) : Prop :=
  forall k,
    (forall s, In s (Dict.keys (post_log k d)) -> exists x, s = Ymd x)
    /\ match Dict.get k (creators d) with
       | None => post_log k d = []
       | Some c =>
           0 <= Creator.current_streak c
           /\ Creator.current_streak c <= Creator.best_streak c
           /\ Creator.best_streak c <= Creator.total_posts c
           /\ Creator.total_posts c = Z.of_nat (List.length (post_log k d))
       end.

(* ================================================================== *)
(** ** Reporting commands (lines 515-550) *)

(** The fields of the embed of [!stats]. *)
Module Stats.
Record t := {
  week_total : Z;                      (* "Week Total", out of 7 *)
  month_total : Z;                     (* "Month Total" *)
  all_time : Z;                        (* "All Time (This Server)" *)
  current_streak : Z;                  (* "Current Streak" *)
  best_streak : Z;                     (* "Best Streak" *)
  last_posted : option date_str        (* "Last Posted" *)
}.
End Stats.

(** [individual_stats]; the result stands for what is sent to the channel:
    [None] for the "No tracking data" message, the fields of the embed
    otherwise.  Without an argument the command is about its author. *)
Definition individual_stats (ctx : Ctx.t) (member : option Member.t)
  : M (option Stats.t) :=
  let member_id :=
    match member with
    | Some m => Member.id m
    | None => Ctx.author_id ctx
    end in
  data <- load_data ;;
  let guild_id := Guild.id (Ctx.guild ctx) in
  let creator_id := member_id in
  let unique_key := make_key guild_id creator_id in
  match Dict.get unique_key (creators data) with
  | None => ret None
  | Some info =>
      week_posts <- get_posts_in_period unique_key 7 ;;
      month_posts <- get_posts_in_period unique_key 30 ;;
      ret (Some {| Stats.week_total := week_posts;
                   Stats.month_total := month_posts;
                   Stats.all_time := Creator.total_posts info;
                   Stats.current_streak := Creator.current_streak info;
                   Stats.best_streak := Creator.best_streak info;
                   Stats.last_posted := Creator.last_posted info |})
  end.

(* ================================================================== *)
(** ** A data file edited by hand *)

(** Ann's registration and record, with a post log in which someone typed
    a date their own way. *)
Definition hand_edited : world :=
  {| file :=
       Some {| tracked_channels := [("500", ann_registration)];
               creators :=
                 [("10_77",
                   Creator.set_last_posted (Some (Ymd 101))
                     (Creator.set_total_posts 2
                        (Creator.set_best_streak 1 ann_on_day_105)))];
               posts :=
                 [("10_77",
                   [(Malformed "5 Jan", ann_entry_105);
                    (Ymd 101, ann_entry_105)])] |};
     ticks := 0; log := [] |}.

(* ================================================================== *)
(** ** Listing the tracked channels (lines 275-313) *)

(** The "Last post" of a row of [!channels]: the stored field, or the
    default of [creator_data.get('last_posted', 'Never')] when the creator
    has no record. *)
Inductive last_post_shown :=
| Never
| Stored (last_posted : option date_str).

Module ChannelRow.
Record t := {
  channel_name : string;         (* the name of the channel, or "Unknown Channel" *)
  creator_name : string;
  last_post : last_post_shown
}.
End ChannelRow.

(** [list_channels]; [get_channel] stands for [bot.get_channel] followed
    by [.name], and the result for what is sent: [None] for the "No
    channels" message, the fields of the embed otherwise. *)
Definition list_channels (get_channel : string -> option string) (ctx : Ctx.t)
  : M (option (list ChannelRow.t)) :=
  data <- load_data ;;
  let guild_id := Guild.id (Ctx.guild ctx) in
  let server_channels :=
    filter (fun ch => String.eqb (Channel.guild_id (snd ch)) guild_id)
      (tracked_channels data) in
  match server_channels with
  | [] => ret None
  | _ =>
      ret (Some
             (map (fun ch =>
                     let channel_id := fst ch in
                     let info := snd ch in
                     let channel_name :=
                       match get_channel channel_id with
                       | Some name => name
                       | None => "Unknown Channel"
                       end in
                     let unique_key := make_key guild_id (Channel.creator_id info) in
                     let last_post :=
                       match Dict.get unique_key (creators data) with
                       | Some creator_data => Stored (Creator.last_posted creator_data)
                       | None => Never
                       end in
                     {| ChannelRow.channel_name := channel_name;
                        ChannelRow.creator_name := Channel.creator_name info;
                        ChannelRow.last_post := last_post |})
                  server_channels))
  end.

(** Every registration has the record of its creator in its server. *)
Definition registrations_have_records (d : snapshot) : Prop :=
  forall channel_id reg,
    Dict.get channel_id (tracked_channels d) = Some reg ->
    Dict.mem (make_key (Channel.guild_id reg) (Channel.creator_id reg))
      (creators d) = true.

(* ================================================================== *)
(** ** The dashboard (lines 399-452) *)

(** Exceptions of the reporting commands: those of the handlers and
    [TypeError], raised when [None] is compared or parsed as a string. *)
Inductive py_exn :=
| Modelled (x : exn)
| TypeError.

Inductive outcome (A : Type) :=
| Done (a : A)
| Failed (x : py_exn).
Arguments Done {A} a.
Arguments Failed {A} x.

Definition R (A : Type) : Type := env -> world -> outcome A * world.

Definition done {A} (a : A) : R A := fun _ w => (Done a, w).

Definition failed {A} (x : py_exn) : R A := fun _ w => (Failed x, w).

Definition and_then {A B} (m : R A) (k : A -> R B) : R B :=
  fun e w =>
    match m e w with
    | (Done a, w') => k a e w'
    | (Failed x, w') => (Failed x, w')
    end.

(** A handler computation inside a reporting command. *)
Definition run_handler {A} (m : M A) : R A :=
  fun e w =>
    match m e w with
    | (Ret a, w') => (Done a, w')
    | (Raise x, w') => (Failed (Modelled x), w')
    end.

(** The status mark of a row. *)
Inductive status :=
| PostedToday        (* days_since == 0 *)
| PostedYesterday    (* days_since <= 1 *)
| Lapsed             (* otherwise *)
| NoPost.            (* last_posted == 'Never' *)

Module DashboardRow.
Record t := {
  mark : status;
  name : string;
  week_posts : Z;
  current_streak : Z;
  last_posted : option date_str
}.
End DashboardRow.

(** Insertion of [x] among rows sorted from the latest [last_posted] down,
    behind the rows that are not earlier; [str_lt] is the order of Python
    strings on the stored dates. *)
Fixpoint insert_desc (str_lt : date_str -> date_str -> bool)
    (x : string * Creator.t) (l : list (string * Creator.t))
  : list (string * Creator.t) :=
  match l with
  | [] => [x]
  | y :: rest =>
      match Creator.last_posted (snd y), Creator.last_posted (snd x) with
      | Some ky, Some kx =>
          if str_lt ky kx then x :: y :: rest
          else y :: insert_desc str_lt x rest
      | _, _ => y :: insert_desc str_lt x rest
      end
  end.

(** [sorted(items, key=lambda x: x[1].get('last_posted', ''), reverse=True)]:
    the stored field is there, so the key of a creator who never posted is
    [None], and with two items or more every key is compared with another
    one: [None] on either side of [<] raises [TypeError]. *)
Definition sorted_by_last_posted (str_lt : date_str -> date_str -> bool)
    (items : list (string * Creator.t)) : outcome (list (string * Creator.t)) :=
  if (Nat.leb 2 (List.length items)
      && existsb (fun x => match Creator.last_posted (snd x) with
                           | None => true
                           | Some _ => false
                           end) items)%bool
  then Failed TypeError
  else Done (fold_left (fun acc x => insert_desc str_lt x acc) items []).

(** [last_posted == 'Never']. *)
Definition shows_never (last_posted : option date_str) : bool :=
  match last_posted with
  | Some (Malformed s) => String.eqb s "Never"
  | _ => false
  end.

(** One field of the embed (lines 430-449). *)
Definition dashboard_row (unique_key : string) (info : Creator.t)
  : R DashboardRow.t :=
  and_then (run_handler (get_posts_in_period unique_key 7)) (fun week_posts =>
  let last_posted := Creator.last_posted info in
  and_then
    (if shows_never last_posted then done NoPost
     else
         and_then (run_handler datetime_now) (fun now =>
         match last_posted with
         | None => failed TypeError
         | Some s =>
             match strptime s with
             | Raise x => failed (Modelled x)
             | Ret posted_at =>
                 let days_since := days_between now posted_at in
                 if days_since =? 0 then done PostedToday
                 else if days_since <=? 1 then done PostedYesterday
                 else done Lapsed
             end
         end)) (fun mark =>
  done {| DashboardRow.mark := mark;
          DashboardRow.name := Creator.name info;
          DashboardRow.week_posts := week_posts;
          DashboardRow.current_streak := Creator.current_streak info;
          DashboardRow.last_posted := last_posted |})).

Fixpoint dashboard_rows (items : list (string * Creator.t))
  : R (list DashboardRow.t) :=
  match items with
  | [] => done []
  | (unique_key, info) :: rest =>
      and_then (dashboard_row unique_key info) (fun row =>
      and_then (dashboard_rows rest) (fun rows => done (row :: rows)))
  end.

(** [dashboard]; the result stands for what is sent: [None] for the "No
    creators" message, the fields of the embed otherwise. *)
Definition dashboard (str_lt : date_str -> date_str -> bool) (ctx : Ctx.t)
  : R (option (list DashboardRow.t)) :=
  and_then (run_handler load_data) (fun data =>
  let guild_id := Guild.id (Ctx.guild ctx) in
  let server_creators :=
    filter (fun kc => String.eqb (Creator.guild_id (snd kc)) guild_id)
      (creators data) in
  match server_creators with
  | [] => done None
  | _ =>
      and_then (run_handler datetime_now) (fun embed_timestamp =>
      and_then (fun _ w => (sorted_by_last_posted str_lt server_creators, w))
        (fun sorted_creators =>
      and_then (dashboard_rows (firstn 20 sorted_creators)) (fun rows =>
      done (Some rows))))
  end).

(** An order on the stored dates for the examples: dates by day number,
    other strings behind them. *)
Definition by_day (a b : date_str) : bool :=
  match a, b with
  | Ymd x, Ymd y => x <? y
  | Ymd _, Malformed _ => true
  | Malformed _, Ymd _ => false
  | Malformed s, Malformed t => String.ltb s t
  end.

(* ================================================================== *)
(** * Lemmas and theorems *)

(* ================================================================== *)
(** ** Keys with a decidable equality *)

Lemma keqb_refl {K} `{EqKey K} (a : K) : keqb a a = true.
Proof. now apply keqb_eq. Qed.

Lemma keqb_neq {K} `{EqKey K} (a b : K) : a <> b -> keqb a b = false.
Proof.
  intros Hab. destruct (keqb a b) eqn:E; [|reflexivity].
  apply keqb_eq in E. contradiction.
Qed.

Lemma keqb_false {K} `{EqKey K} (a b : K) : keqb a b = false -> a <> b.
Proof. intros E Hab. subst. rewrite keqb_refl in E. discriminate. Qed.

(* ================================================================== *)
(** ** Python dictionaries *)

Module DictFacts.
Import Dict.
Section Facts.
Context {K V : Type} `{EqKey K}.
Implicit Types (k : K) (v : V) (d : dict K V).

Lemma get_set_same k v d : get k (set k v d) = Some v.
Proof.
  induction d as [|[k' v'] d IH]; simpl.
  - now rewrite keqb_refl.
  - destruct (keqb k k') eqn:E; simpl; rewrite E; auto.
Qed.

Lemma get_set_other k k' v d : k <> k' -> get k (set k' v d) = get k d.
Proof.
  intros Hne. induction d as [|[k0 v0] d IH]; simpl.
  - now rewrite (keqb_neq _ _ Hne).
  - destruct (keqb k' k0) eqn:E; simpl.
    + apply keqb_eq in E. subst k0. now rewrite (keqb_neq _ _ Hne).
    + now rewrite IH.
Qed.

Lemma get_del_other k k' d : k <> k' -> get k (del k' d) = get k d.
Proof.
  intros Hne. induction d as [|[k0 v0] d IH]; simpl; auto.
  destruct (keqb k' k0) eqn:E; simpl.
  - apply keqb_eq in E. subst k0. now rewrite (keqb_neq _ _ Hne).
  - now rewrite IH.
Qed.

Lemma mem_get k d : mem k d = true <-> exists v, get k d = Some v.
Proof.
  unfold mem. destruct (get k d); split; intros Hx; eauto; try discriminate.
  destruct Hx as [? Hx]. discriminate.
Qed.

Lemma mem_keys k d : mem k d = true <-> In k (keys d).
Proof.
  unfold mem. induction d as [|[k' v'] d IH]; simpl.
  - split; [discriminate | tauto].
  - destruct (keqb k k') eqn:E.
    + apply keqb_eq in E. subst. tauto.
    + split; intros Hx.
      * right. now apply IH.
      * destruct Hx as [Hx|Hx]; [|now apply IH].
        subst. rewrite keqb_refl in E. discriminate.
Qed.

Lemma keys_set_absent k v d : mem k d = false -> keys (set k v d) = keys d ++ [k].
Proof.
  unfold mem, keys. induction d as [|[k' v'] d IH]; simpl; auto.
  destruct (keqb k k') eqn:E; [discriminate|].
  intros Hm. simpl. now rewrite IH.
Qed.

Lemma keys_set_present k v d : mem k d = true -> keys (set k v d) = keys d.
Proof.
  unfold mem, keys. induction d as [|[k' v'] d IH]; simpl; [discriminate|].
  destruct (keqb k k') eqn:E; simpl; auto.
  intros Hm. now rewrite IH.
Qed.

Lemma get_In k v d : get k d = Some v -> In (k, v) d.
Proof.
  induction d as [|[k' v'] d IH]; simpl; [discriminate|].
  destruct (keqb k k') eqn:E.
  - apply keqb_eq in E. subst. intros [= ->]. now left.
  - intros Hg. right. auto.
Qed.

Lemma In_get k v d : NoDup (keys d) -> In (k, v) d -> get k d = Some v.
Proof.
  induction d as [|[k' v'] d IH]; simpl; [tauto|].
  intros Hnd [Hin|Hin].
  - inversion Hin; subst. now rewrite keqb_refl.
  - inversion Hnd as [|? ? Hni Hnd']; subst.
    destruct (keqb k k') eqn:E.
    + apply keqb_eq in E. subst k'. exfalso. apply Hni.
      change (In k (keys d)). unfold keys. apply in_map_iff.
      now exists (k, v).
    + auto.
Qed.
End Facts.
End DictFacts.

(* ================================================================== *)
(** ** Dates and instants *)

Lemma date_of_minus_days t n : date_of (minus_days t n) = date_of t - n.
Proof.
  unfold date_of, minus_days.
  replace (t - n * us_per_day) with (t + (- n) * us_per_day) by ring.
  rewrite Z.div_add by (unfold us_per_day; lia). lia.
Qed.

Lemma days_between_midnight t d : days_between t (midnight d) = date_of t - d.
Proof.
  unfold days_between, midnight, date_of.
  replace (t - d * us_per_day) with (t + (- d) * us_per_day) by ring.
  rewrite Z.div_add by (unfold us_per_day; lia). lia.
Qed.

Lemma date_of_midnight d : date_of (midnight d) = d.
Proof. unfold date_of, midnight. apply Z.div_mul. unfold us_per_day. lia. Qed.

Lemma time_of_day_range t : 0 <= time_of_day t < us_per_day.
Proof. unfold time_of_day. apply Z.mod_pos_bound. unfold us_per_day. lia. Qed.

Lemma datetime_split t : t = date_of t * us_per_day + time_of_day t.
Proof.
  unfold date_of, time_of_day.
  rewrite (Z.mul_comm (t / us_per_day)). apply Z.div_mod.
  unfold us_per_day. lia.
Qed.

(* ================================================================== *)
(** ** The handlers on messages that are not events *)

(** C10. A message written by a bot account, and a message outside a
    server (a direct message), leave the handler at once: the world is
    the one it was called in, so the data file was neither read nor
    written, the clock was not consulted, nothing was sent and the
    message was not handed to command processing. *)
Theorem on_message_ignores_bots_and_dms :
  forall (message : Message.t) (e : env) (w : world),
    Message.author_bot message = true \/ Message.guild message = None ->
    on_message message e w = (Ret tt, w).
Proof.
  intros message e w [Hbot | Hdm]; unfold on_message.
  - now rewrite Hbot.
  - rewrite Hdm. now destruct (Message.author_bot message).
Qed.

(* ================================================================== *)
(** ** Persistence primitives *)

Lemma load_data_ok e w d :
  read_fails e = false -> file w = Some d ->
  load_data e w = (Ret d, logged (Load true) w).
Proof.
  intros Hr Hf. unfold load_data, catch, read_file, logged.
  rewrite Hr, Hf. reflexivity.
Qed.

Lemma load_data_failed e w :
  read_fails e = true \/ file w = None ->
  load_data e w = (Ret empty_data, logged (Load false) w).
Proof.
  intros [Hr | Hf]; unfold load_data, catch, read_file, logged, ret.
  - rewrite Hr. reflexivity.
  - rewrite Hf. destruct (read_fails e); reflexivity.
Qed.

(** [load_data] never raises and never touches the file. *)
Lemma load_data_total e w :
  exists d ok, load_data e w = (Ret d, logged (Load ok) w).
Proof.
  destruct (read_fails e) eqn:Hr.
  - exists empty_data, false. apply load_data_failed. now left.
  - destruct (file w) as [d|] eqn:Hf.
    + exists d, true. now apply load_data_ok.
    + exists empty_data, false. apply load_data_failed. now right.
Qed.

Lemma post_log_ensure key c d :
  post_log key (ensure_log key (ensure_creator key c d)) = post_log key d.
Proof.
  unfold post_log, ensure_log, ensure_creator.
  destruct (Dict.mem key (creators d)); simpl;
    unfold Dict.mem; destruct (Dict.get key (posts d)) eqn:Hg; simpl;
    rewrite ?Hg, ?DictFacts.get_set_same; reflexivity.
Qed.

Lemma subscript_ensure_log key c d :
  subscript key (posts (ensure_log key (ensure_creator key c d)))
  = Ret (post_log key d).
Proof.
  unfold subscript, post_log, ensure_log, ensure_creator.
  destruct (Dict.mem key (creators d)); simpl;
    unfold Dict.mem; destruct (Dict.get key (posts d)) eqn:Hg; simpl;
    rewrite ?Hg, ?DictFacts.get_set_same; reflexivity.
Qed.

(* ================================================================== *)
(** ** One credited event per key and day *)

(** C1. When the stored post log of the key already has an entry for the
    date of the call, a further qualifying message is answered with the
    "already tracked" reply and nothing else happens: the data file is
    the one found, no save is issued, and neither the post log nor any
    counter of the record changes. *)
Theorem on_message_same_day_duplicate :
  forall (message : Message.t) (g : Guild.t) (channel_data : Channel.t)
         (d : snapshot) (entry : Post.t) (e : env) (w : world),
    Message.author_bot message = false ->
    Message.guild message = Some g ->
    read_fails e = false ->
    file w = Some d ->
    Dict.get (Message.channel_id message) (tracked_channels d) = Some channel_data ->
    has_posted_keyword (Message.content message) = true ->
    Dict.get (strftime (clock e (ticks w)))
      (post_log (make_key (Guild.id g) (Channel.creator_id channel_data)) d)
      = Some entry ->
    on_message message e w
    = (Ret tt,
       {| file := Some d;
          ticks := S (S (ticks w));
          log := ProcessCommands (Message.content message)
                 :: AlreadyTracked :: Load true :: log w |}).
Proof.
  intros message g cd d entry e w Hbot Hg Hr Hf Hch Hkw Hdup.
  unfold on_message. rewrite Hbot, Hg.
  unfold bind at 1. rewrite (load_data_ok e w d Hr Hf).
  rewrite Hch, Hkw.
  unfold bind at 1. unfold track_post.
  unfold bind at 1. unfold datetime_now at 1. cbn [logged ticks file log].
  unfold bind at 1. unfold datetime_now at 1. cbn [logged ticks file log].
  unfold bind at 1. unfold lift at 1.
  rewrite subscript_ensure_log.
  unfold Dict.mem. rewrite Hdup. cbn [negb].
  unfold emit. cbn [file ticks log]. now rewrite Hf.
Qed.

(* ================================================================== *)
(** ** What a credited event writes *)

Lemma dict_set_set {K V} `{EqKey K} (k : K) (v v' : V) (d : dict K V) :
  Dict.set k v (Dict.set k v' d) = Dict.set k v d.
Proof.
  induction d as [|[k0 v0] d IH]; simpl.
  - now rewrite keqb_refl.
  - destruct (keqb k k0) eqn:E; simpl; rewrite E; [reflexivity|].
    now rewrite IH.
Qed.

Lemma ensure_creator_get key c d :
  Dict.get key (creators (ensure_creator key c d)) = Some (record_of key c d).
Proof.
  unfold ensure_creator, record_of, Dict.mem.
  destruct (Dict.get key (creators d)) eqn:Hg; simpl.
  - exact Hg.
  - apply DictFacts.get_set_same.
Qed.

Lemma ensure_creator_set key c c' d :
  Dict.set key c' (creators (ensure_creator key c d))
  = Dict.set key c' (creators d).
Proof.
  unfold ensure_creator. destruct (negb _); simpl; [|reflexivity].
  apply dict_set_set.
Qed.

Lemma ensure_log_set key plog d :
  Dict.set key plog (posts (ensure_log key d)) = Dict.set key plog (posts d).
Proof.
  unfold ensure_log. destruct (negb _); simpl; [|reflexivity].
  apply dict_set_set.
Qed.

Lemma ensure_log_creators key d : creators (ensure_log key d) = creators d.
Proof. unfold ensure_log. now destruct (negb _). Qed.

Lemma ensure_log_tracked key d :
  tracked_channels (ensure_log key d) = tracked_channels d.
Proof. unfold ensure_log. now destruct (negb _). Qed.

Lemma ensure_creator_posts key c d : posts (ensure_creator key c d) = posts d.
Proof. unfold ensure_creator. now destruct (negb _). Qed.

Lemma ensure_creator_tracked key c d :
  tracked_channels (ensure_creator key c d) = tracked_channels d.
Proof. unfold ensure_creator. now destruct (negb _). Qed.

(** A first event of the day: the three readings, the save, and then the
    confirmation. *)
Lemma track_post_new message g channel_data d e w :
  Dict.mem (strftime (clock e (ticks w)))
    (post_log (make_key (Guild.id g) (Channel.creator_id channel_data)) d)
    = false ->
  track_post message g channel_data d e w
  = let now0 := clock e (ticks w) in
    let timestamp := clock e (S (ticks w)) in
    let now2 := clock e (S (S (ticks w))) in
    let d' := credited message g channel_data d now0 timestamp now2 in
    if write_fails e then (Raise IOError, ticked 3 w)
    else
      send_confirmation
        (make_key (Guild.id g) (Channel.creator_id channel_data))
        (Guild.name g)
        (Creator.current_streak
           (credited_record message g channel_data d now0 timestamp now2))
        e
        {| file := Some d'; ticks := 3 + ticks w;
           log := AddReaction :: Save d' :: log w |}.
Proof.
  intros Hnew. unfold track_post.
  unfold bind at 1. unfold datetime_now at 1. cbn [ticks file log].
  unfold bind at 1. unfold datetime_now at 1. cbn [ticks file log].
  unfold bind at 1. unfold lift at 1.
  rewrite subscript_ensure_log. rewrite Hnew. cbn [negb].
  unfold bind at 1. unfold lift at 1.
  unfold subscript. cbn [creators set_posts].
  rewrite !ensure_log_creators, !ensure_creator_get.
  unfold bind at 1. unfold datetime_now at 1. cbn [ticks file log].
  unfold bind at 1. unfold save_data at 1.
  cbv zeta.
  destruct (write_fails e); [reflexivity|].
  cbn [ticks file log].
  unfold bind at 1. unfold emit at 1. cbn [ticks file log].
  rewrite !ensure_log_set, !ensure_creator_posts, !ensure_creator_set.
  unfold set_creators, set_posts. cbn [creators posts tracked_channels].
  rewrite !ensure_log_tracked, !ensure_creator_tracked.
  reflexivity.
Qed.

(* ================================================================== *)
(** ** Computations that leave the data file alone *)

Lemma keeps_file_ret {A} (a : A) : keeps_file (ret a).
Proof. now intros e w. Qed.

Lemma keeps_file_lift {A} (r : res A) : keeps_file (lift r).
Proof. now intros e w. Qed.

Lemma keeps_file_emit ev : keeps_file (emit ev).
Proof. now intros e w. Qed.

Lemma keeps_file_now : keeps_file datetime_now.
Proof. now intros e w. Qed.

Lemma keeps_file_bind {A B} (m : M A) (k : A -> M B) :
  keeps_file m -> (forall a, keeps_file (k a)) -> keeps_file (bind m k).
Proof.
  intros Hm Hk e w. unfold bind. specialize (Hm e w).
  destruct (m e w) as [[a|x] w']; simpl in *.
  - now rewrite Hk.
  - exact Hm.
Qed.

Lemma keeps_file_catch {A} (m : M A) (h : exn -> M A) :
  keeps_file m -> (forall x, keeps_file (h x)) -> keeps_file (catch m h).
Proof.
  intros Hm Hh e w. unfold catch. specialize (Hm e w).
  destruct (m e w) as [[a|x] w']; simpl in *.
  - exact Hm.
  - now rewrite Hh.
Qed.

Lemma keeps_file_read : keeps_file read_file.
Proof.
  intros e w. unfold read_file.
  now destruct (if read_fails e then None else file w).
Qed.

Lemma keeps_file_load : keeps_file load_data.
Proof.
  apply keeps_file_catch; [apply keeps_file_read|].
  intros x. apply keeps_file_ret.
Qed.

Lemma keeps_file_get_posts key days : keeps_file (get_posts_in_period key days).
Proof.
  apply keeps_file_bind; [apply keeps_file_load|].
  intros d. destruct (Dict.get key (posts d)).
  - apply keeps_file_bind; [apply keeps_file_now|].
    intros now. apply keeps_file_lift.
  - apply keeps_file_ret.
Qed.

Lemma keeps_file_confirmation key gname current :
  keeps_file (send_confirmation key gname current).
Proof.
  apply keeps_file_bind; [apply keeps_file_get_posts|]. intros week.
  apply keeps_file_bind; [apply keeps_file_get_posts|]. intros month.
  apply keeps_file_emit.
Qed.

Lemma load_data_loaded e w :
  exists ok, load_data e w = (Ret (loaded e w), logged (Load ok) w).
Proof.
  unfold load_data, catch, read_file, loaded, logged, ret.
  destruct (if read_fails e then None else file w); eauto.
Qed.

Lemma loaded_ok e w d :
  read_fails e = false -> file w = Some d -> loaded e w = d.
Proof. intros Hr Hf. unfold loaded. now rewrite Hr, Hf. Qed.

(** The file after [on_message]: untouched, or the credited snapshot. *)
Lemma on_message_file message e w :
  file (snd (on_message message e w)) = file w
  \/ exists g channel_data,
       Message.author_bot message = false
       /\ has_posted_keyword (Message.content message) = true
       /\ write_fails e = false
       /\ Message.guild message = Some g
       /\ Dict.get (Message.channel_id message) (tracked_channels (loaded e w))
          = Some channel_data
       /\ Dict.mem (strftime (clock e (ticks w)))
            (post_log (make_key (Guild.id g) (Channel.creator_id channel_data))
               (loaded e w)) = false
       /\ file (snd (on_message message e w))
          = Some (credited message g channel_data (loaded e w)
                    (clock e (ticks w)) (clock e (S (ticks w)))
                    (clock e (S (S (ticks w))))).
Proof.
  remember (on_message message e w) as r eqn:Hr.
  unfold on_message in Hr.
  destruct (Message.author_bot message) eqn:Hbot; [left; now subst r|].
  destruct (Message.guild message) as [g|] eqn:Hg; [|left; now subst r].
  destruct (load_data_loaded e w) as [ok Hload].
  unfold bind at 1 in Hr. rewrite Hload in Hr.
  destruct (Dict.get (Message.channel_id message)
              (tracked_channels (loaded e w))) as [cd|] eqn:Hch;
    [|left; now subst r].
  destruct (has_posted_keyword (Message.content message)) eqn:Hkw;
    [|left; now subst r].
  unfold bind at 1 in Hr.
  destruct (Dict.mem (strftime (clock e (ticks w)))
              (post_log (make_key (Guild.id g) (Channel.creator_id cd))
                 (loaded e w))) eqn:Hmem.
  - left. unfold track_post in Hr.
    unfold bind at 1 in Hr. unfold datetime_now at 1 in Hr.
    cbn [logged ticks file log] in Hr.
    unfold bind at 1 in Hr. unfold datetime_now at 1 in Hr.
    cbn [logged ticks file log] in Hr.
    unfold bind at 1 in Hr. unfold lift at 1 in Hr.
    rewrite subscript_ensure_log in Hr. rewrite Hmem in Hr. now subst r.
  - rewrite track_post_new in Hr by exact Hmem.
    cbv zeta in Hr. destruct (write_fails e) eqn:Hwr; [left; now subst r|].
    right. exists g, cd. repeat split; try assumption.
    cbn [logged ticks file log] in Hr.
    match type of Hr with
    | context [send_confirmation ?k ?n ?c e ?w0] =>
        pose proof (keeps_file_confirmation k n c e w0) as Hkeep;
        destruct (send_confirmation k n c e w0) as [[u|x] w1]
    end; subst r; simpl in *; exact Hkeep.
Qed.

Lemma setup_channel_file ctx member e w :
  file (snd (setup_channel ctx member e w)) = file w
  \/ (Dict.get (Ctx.channel_id ctx) (tracked_channels (loaded e w)) = None
      /\ write_fails e = false
      /\ fst (setup_channel ctx member e w) = Ret tt
      /\ file (snd (setup_channel ctx member e w))
         = Some (registered ctx member (loaded e w)
                   (clock e (ticks w)) (clock e (S (ticks w))))).
Proof.
  remember (setup_channel ctx member e w) as r eqn:Hr.
  unfold setup_channel in Hr.
  destruct (load_data_loaded e w) as [ok Hload].
  unfold bind at 1 in Hr. rewrite Hload in Hr.
  destruct (Dict.get (Ctx.channel_id ctx) (tracked_channels (loaded e w)))
    as [reg|] eqn:Hch; [left; now subst r|].
  unfold bind at 1 in Hr. unfold datetime_now at 1 in Hr.
  cbn [logged ticks file log] in Hr.
  unfold bind at 1 in Hr. unfold registered, ensure_creator.
  cbn [creators set_tracked_channels] in *.
  destruct (negb (Dict.mem (make_key (Guild.id (Ctx.guild ctx)) (Member.id member))
                    (creators (loaded e w)))).
  - unfold bind at 1 in Hr. unfold datetime_now at 1 in Hr.
    cbn [logged ticks file log ret] in Hr.
    unfold bind at 1 in Hr. unfold save_data at 1 in Hr.
    destruct (write_fails e); [left; now subst r|].
    right. subst r. repeat split; reflexivity.
  - cbn [ret] in Hr.
    unfold bind at 1 in Hr. unfold save_data at 1 in Hr.
    destruct (write_fails e); [left; now subst r|].
    right. subst r. repeat split; reflexivity.
Qed.

Lemma unsetup_channel_file ctx e w :
  file (snd (unsetup_channel ctx e w)) = file w
  \/ (write_fails e = false
      /\ Dict.mem (Ctx.channel_id ctx) (tracked_channels (loaded e w)) = true
      /\ file (snd (unsetup_channel ctx e w))
         = Some (set_tracked_channels
                   (Dict.del (Ctx.channel_id ctx)
                      (tracked_channels (loaded e w))) (loaded e w))).
Proof.
  remember (unsetup_channel ctx e w) as r eqn:Hr.
  unfold unsetup_channel in Hr.
  destruct (load_data_loaded e w) as [ok Hload].
  unfold bind at 1 in Hr. rewrite Hload in Hr.
  destruct (Dict.get (Ctx.channel_id ctx) (tracked_channels (loaded e w)))
    as [reg|] eqn:Hch; [|left; now subst r].
  unfold bind at 1 in Hr. unfold save_data at 1 in Hr.
  destruct (write_fails e); [left; now subst r|].
  right. subst r. unfold Dict.mem. rewrite Hch. repeat split; reflexivity.
Qed.

(* ================================================================== *)
(** ** One iteration of the reminder loop *)

Lemma remind_eq key c days lp data e w :
  remind key c days lp data e w
  = let ev := Reminder key (Creator.creator_id c) days (Creator.guild_name c)
                lp (dm_ok e (Creator.creator_id c)) in
    if dm_ok e (Creator.creator_id c) then
      match Dict.get key (creators data) with
      | Some c0 =>
          let data' := marked key (strftime (clock e (ticks w))) c0 data in
          if write_fails e
          then (Ret data',
                {| file := file w; ticks := S (ticks w); log := ev :: log w |})
          else (Ret data',
                {| file := Some data'; ticks := S (ticks w);
                   log := Save data' :: ev :: log w |})
      | None =>
          (Ret data,
           {| file := file w; ticks := S (ticks w); log := ev :: log w |})
      end
    else (Ret data, logged ev w).
Proof.
  unfold remind, catch at 1, bind at 1, send_reminder.
  destruct (dm_ok e (Creator.creator_id c)); [|reflexivity].
  unfold bind at 1, datetime_now at 1. cbn [file ticks log].
  unfold bind at 1, lift at 1, subscript.
  destruct (Dict.get key (creators data)) as [c0|]; [|reflexivity].
  unfold catch, bind, save_data, ret, marked. cbn [file ticks log].
  destruct (write_fails e); reflexivity.
Qed.

Lemma check_creator_eq key c data e w :
  exists n,
    check_creator key c data e w
    = match decide_reminder (clock e (ticks w)) (clock e (S (ticks w))) c with
      | Raise x => (Raise x, ticked n w)
      | Ret None => (Ret data, ticked n w)
      | Ret (Some (days, lp)) => remind key c days lp data e (ticked n w)
      end.
Proof.
  unfold check_creator, decide_reminder.
  destruct (Creator.last_posted c) as [lp|]; [|exists 0%nat; now destruct w].
  destruct (truthy (Some lp)); [|exists 0%nat; now destruct w].
  unfold bind at 1, datetime_now at 1. cbn [file ticks log].
  unfold bind at 1, lift at 1.
  destruct (strptime lp) as [p|x]; [|exists 1%nat; reflexivity].
  destruct (REMINDER_DAYS <=? days_between (clock e (ticks w)) p);
    [|exists 1%nat; reflexivity].
  destruct (Creator.last_reminded c) as [lr|];
    [|exists 1%nat; reflexivity].
  destruct (truthy (Some lr)); [|exists 1%nat; reflexivity].
  unfold bind at 1, bind at 1, datetime_now at 1. cbn [file ticks log].
  unfold bind at 1, lift at 1.
  destruct (strptime lr) as [r|x]; [|exists 2%nat; reflexivity].
  unfold ret at 1.
  destruct (days_between (clock e (S (ticks w))) r <? REMINDER_DAYS);
    exists 2%nat; reflexivity.
Qed.

Lemma decide_reminder_on_day D t t' c :
  date_of t = D -> date_of t' = D -> decide_reminder t t' c = verdict D c.
Proof.
  intros Ht Ht'. unfold verdict, decide_reminder.
  destruct (Creator.last_posted c) as [[p|s]|]; try reflexivity.
  cbn [truthy strptime].
  rewrite !days_between_midnight, Ht, date_of_midnight.
  destruct (REMINDER_DAYS <=? D - p); [|reflexivity].
  destruct (Creator.last_reminded c) as [[r|s]|]; try reflexivity.
  cbn [truthy strptime].
  now rewrite !days_between_midnight, Ht', date_of_midnight.
Qed.

(** What one iteration returns, writes and sends. *)
Lemma check_creator_obs key c data e w :
  let r := check_creator key c data e w in
  match decide_reminder (clock e (ticks w)) (clock e (S (ticks w))) c with
  | Raise x => fst r = Raise x /\ file (snd r) = file w /\ log (snd r) = log w
  | Ret None => fst r = Ret data /\ file (snd r) = file w /\ log (snd r) = log w
  | Ret (Some (days, lp)) =>
      let ev := Reminder key (Creator.creator_id c) days (Creator.guild_name c)
                  lp (dm_ok e (Creator.creator_id c)) in
      if dm_ok e (Creator.creator_id c) then
        match Dict.get key (creators data) with
        | Some c0 =>
            exists n,
              let data' := marked key (strftime (clock e n)) c0 data in
              fst r = Ret data'
              /\ if write_fails e
                 then file (snd r) = file w /\ log (snd r) = ev :: log w
                 else file (snd r) = Some data'
                      /\ log (snd r) = Save data' :: ev :: log w
        | None =>
            fst r = Ret data /\ file (snd r) = file w
            /\ log (snd r) = ev :: log w
        end
      else
        fst r = Ret data /\ file (snd r) = file w /\ log (snd r) = ev :: log w
  end.
Proof.
  cbv zeta. destruct (check_creator_eq key c data e w) as [n Heq].
  rewrite Heq. clear Heq.
  destruct (decide_reminder (clock e (ticks w)) (clock e (S (ticks w))) c)
    as [[[days lp]|]|x]; try (repeat split; reflexivity).
  rewrite remind_eq. cbv zeta.
  destruct (dm_ok e (Creator.creator_id c)); [|repeat split; reflexivity].
  destruct (Dict.get key (creators data)) as [c0|];
    [|repeat split; reflexivity].
  exists (ticks (ticked n w)).
  destruct (write_fails e); repeat split; reflexivity.
Qed.

Lemma reminded_only_refl c : reminded_only c c.
Proof. unfold reminded_only. now destruct c. Qed.

Lemma marks_refl d : marks d d.
Proof.
  repeat split. induction (creators d) as [|[k c] l IH]; constructor; auto.
  split; [reflexivity | apply reminded_only_refl].
Qed.

Lemma marks_set key v c0 (l l' : dict string Creator.t) :
  Forall2 (fun kc kc' => fst kc' = fst kc /\ reminded_only (snd kc) (snd kc')) l l' ->
  Dict.get key l' = Some c0 ->
  Forall2 (fun kc kc' => fst kc' = fst kc /\ reminded_only (snd kc) (snd kc')) l
    (Dict.set key (Creator.set_last_reminded v c0) l').
Proof.
  induction 1 as [|[k c] [k' c'] l l' [Hk Hc] Hrest IH];
    cbn [Dict.get Dict.set]; [discriminate|].
  cbn [fst snd] in Hk, Hc. subst k'.
  destruct (keqb key k) eqn:E.
  - intros [= <-]. constructor; [|exact Hrest]. split; [reflexivity|].
    cbn [fst snd]. unfold reminded_only in *. rewrite Hc. reflexivity.
  - intros Hg. constructor; [now split | now apply IH].
Qed.

Lemma marks_marked d data key today c0 :
  marks d data -> Dict.get key (creators data) = Some c0 ->
  marks d (marked key today c0 data).
Proof.
  intros (Ht & Hp & Hc) Hg. unfold marked, marks, set_creators; simpl.
  repeat split; auto. now apply marks_set.
Qed.

(** Each iteration hands on the snapshot it got, or a marked one, and the
    file holds what it held or the snapshot handed on. *)
Lemma check_creator_marks d0 key c data e w :
  marks d0 data ->
  let r := check_creator key c data e w in
  (forall data', fst r = Ret data' -> marks d0 data')
  /\ (file (snd r) = file w \/ exists df, file (snd r) = Some df /\ marks d0 df).
Proof.
  intros Hm. cbv zeta. pose proof (check_creator_obs key c data e w) as Hobs.
  cbv zeta in Hobs.
  destruct (decide_reminder (clock e (ticks w)) (clock e (S (ticks w))) c)
    as [[[days lp]|]|x].
  - destruct (dm_ok e (Creator.creator_id c)).
    + destruct (Dict.get key (creators data)) as [c0|] eqn:Hg.
      * destruct Hobs as (n & Hr & Hw).
        assert (Hm' : marks d0 (marked key (strftime (clock e n)) c0 data))
          by now apply marks_marked.
        split.
        -- intros data'. rewrite Hr. now intros [= <-].
        -- destruct (write_fails e); destruct Hw as [Hf _]; [now left|].
           right. eauto.
      * destruct Hobs as (Hr & Hf & _). split; [|now left].
        intros data'. rewrite Hr. now intros [= <-].
    + destruct Hobs as (Hr & Hf & _). split; [|now left].
      intros data'. rewrite Hr. now intros [= <-].
  - destruct Hobs as (Hr & Hf & _). split; [|now left].
    intros data'. rewrite Hr. now intros [= <-].
  - destruct Hobs as (Hr & Hf & _). split; [|now left].
    intros data'. rewrite Hr. discriminate.
Qed.

Lemma reminder_loop_file d0 items :
  forall data e w,
    marks d0 data ->
    file (snd (reminder_loop items data e w)) = file w
    \/ exists df, file (snd (reminder_loop items data e w)) = Some df
                  /\ marks d0 df.
Proof.
  induction items as [|[key c] rest IH]; intros data e w Hm; [now left|].
  cbn [reminder_loop]. unfold bind.
  destruct (check_creator_marks d0 key c data e w Hm) as [Hret Hfile].
  destruct (check_creator key c data e w) as [[data'|x] w1]; simpl in *.
  - destruct (IH data' e w1 (Hret data' eq_refl)) as [Hsame | Hnew].
    + rewrite Hsame. exact Hfile.
    + now right.
  - exact Hfile.
Qed.

Lemma check_reminders_file e w :
  file (snd (check_reminders e w)) = file w
  \/ exists df, file (snd (check_reminders e w)) = Some df
                /\ marks (loaded e w) df.
Proof.
  unfold check_reminders, bind.
  destruct (load_data_loaded e w) as [ok Hload]. rewrite Hload.
  apply (reminder_loop_file (loaded e w) (creators (loaded e w)) (loaded e w) e
           (logged (Load ok) w)).
  apply marks_refl.
Qed.

Lemma after_file o e w :
  file (after o e w) = file w
  \/ exists d', file (after o e w) = Some d' /\ writes e (loaded e w) d'.
Proof.
  unfold after. destruct o as [message|ctx member|ctx| |key days]; cbn [step].
  - destruct (on_message_file message e w)
      as [H|(g & cd & _ & _ & _ & _ & _ & Hnew & H)];
      [now left|].
    right. eexists. split; [exact H|]. now apply writes_credit.
  - destruct (setup_channel_file ctx member e w) as [H|(_ & _ & _ & H)];
      [now left|].
    right. eexists. split; [exact H|]. apply writes_setup.
  - destruct (unsetup_channel_file ctx e w) as [H|(_ & _ & H)]; [now left|].
    right. eexists. split; [exact H|]. apply writes_unsetup.
  - destruct (check_reminders_file e w) as [H|(df & H & Hm)]; [now left|].
    right. exists df. split; [exact H|]. now apply writes_marks.
  - left. apply (keeps_file_bind (get_posts_in_period key days) (fun _ => ret tt)).
    + apply keeps_file_get_posts.
    + intros a. apply keeps_file_ret.
Qed.

(* ================================================================== *)
(** ** The best streak *)



Lemma marks_get_new d d' k c' :
  marks d d' -> Dict.get k (creators d') = Some c' ->
  exists c, Dict.get k (creators d) = Some c /\ reminded_only c c'.
Proof.
  intros (_ & _ & Hall). induction Hall as [|[k0 c0] [k1 c1] l l' [Hk Hc] _ IH];
    cbn [Dict.get]; [discriminate|].
  cbn [fst snd] in Hk, Hc. subst k1. destruct (keqb k k0).
  - intros [= <-]. eauto.
  - exact IH.
Qed.

Lemma marks_get_old d d' k c :
  marks d d' -> Dict.get k (creators d) = Some c ->
  exists c', Dict.get k (creators d') = Some c' /\ reminded_only c c'.
Proof.
  intros (_ & _ & Hall). induction Hall as [|[k0 c0] [k1 c1] l l' [Hk Hc] _ IH];
    cbn [Dict.get]; [discriminate|].
  cbn [fst snd] in Hk, Hc. subst k1. destruct (keqb k k0).
  - intros [= <-]. eauto.
  - exact IH.
Qed.






(** An invariant of the snapshots that every write keeps holds of every
    file the bot can leave behind. *)
Lemma reachable_invariant (I : snapshot -> Prop) :
  I empty_data ->
  (forall e d d', I d -> writes e d d' -> I d') ->
  forall w, reachable w -> forall d, file w = Some d -> I d.
Proof.
  intros Hempty Hstep w Hreach. induction Hreach as [|o e w Hreach IH].
  - discriminate.
  - intros d Hd. destruct (after_file o e w) as [Hsame|(d' & Hd' & Hw)].
    + apply IH. now rewrite <- Hsame.
    + rewrite Hd' in Hd. injection Hd as <-.
      apply (Hstep e (loaded e w)); [|exact Hw].
      unfold loaded. destruct (read_fails e); [exact Hempty|].
      destruct (file w) as [d0|]; [now apply IH | exact Hempty].
Qed.



(* ================================================================== *)
(** ** Runs of consecutive dates *)






(* ================================================================== *)
(** ** The streak follows the post log *)

Lemma dict_mem_set {K V} `{EqKey K} (k k' : K) (v : V) (d : dict K V) :
  Dict.mem k (Dict.set k' v d) = (keqb k k' || Dict.mem k d)%bool.
Proof.
  unfold Dict.mem. destruct (keqb k k') eqn:E.
  - apply keqb_eq in E. subst. now rewrite DictFacts.get_set_same.
  - rewrite DictFacts.get_set_other by now apply keqb_false. reflexivity.
Qed.

Lemma update_streak_last_posted b c :
  Creator.last_posted (update_streak b c) = Creator.last_posted c.
Proof.
  unfold update_streak.
  destruct b; match goal with |- context [if ?t then _ else _] => destruct t end;
    reflexivity.
Qed.

(** Lines 139-142: one more than before when yesterday is in the log,
    1 otherwise. *)
Lemma update_streak_current b c :
  Creator.current_streak (update_streak b c)
  = if b then Creator.current_streak c + 1 else 1.
Proof.
  unfold update_streak.
  destruct b; match goal with |- context [if ?t then _ else _] => destruct t end;
    reflexivity.
Qed.

Lemma post_log_credited k message g cd d t0 t1 t2 :
  post_log k (credited message g cd d t0 t1 t2)
  = if String.eqb k (make_key (Guild.id g) (Channel.creator_id cd))
    then credited_log message g cd d t0 t1
    else post_log k d.
Proof.
  unfold post_log at 1. cbn [credited posts].
  destruct (String.eqb_spec k (make_key (Guild.id g) (Channel.creator_id cd)))
    as [->|Hne].
  - now rewrite DictFacts.get_set_same.
  - now rewrite DictFacts.get_set_other by exact Hne.
Qed.



(** On a credit the new streak is the old one plus 1 when the day before
    is in the log, and 1 when it is not. *)
Lemma credited_record_streak D message g cd d e n :
  on_day D e ->
  Dict.mem (Ymd D) (post_log (make_key (Guild.id g) (Channel.creator_id cd)) d)
    = false ->
  let key := make_key (Guild.id g) (Channel.creator_id cd) in
  let c' := credited_record message g cd d (clock e n) (clock e (S n))
              (clock e (S (S n))) in
  Creator.last_posted c' = Some (Ymd D)
  /\ Creator.current_streak c'
     = if Dict.mem (Ymd (D - 1)) (post_log key d)
       then Creator.current_streak
              (record_of key
                 (Creator.fresh (Channel.creator_name cd) (Guild.id g)
                    (Guild.name g) (Channel.creator_id cd)
                    (Message.channel_id message) (Ymd D)) d) + 1
       else 1.
Proof.
  intros Hday Hnew. cbv zeta. unfold credited_record.
  rewrite update_streak_last_posted, update_streak_current.
  unfold credited_log, strftime. rewrite date_of_minus_days, !Hday.
  split; [reflexivity|].
  rewrite dict_mem_set.
  replace (keqb (Ymd (D - 1)) (Ymd D)) with false; [reflexivity|].
  symmetry. apply keqb_neq. intros [= Heq]. lia.
Qed.







(* ================================================================== *)
(** ** The reminder pass on a given day *)

Lemma check_creator_on_day D key c data e w :
  on_day D e ->
  let r := check_creator key c data e w in
  match verdict D c with
  | Raise x => fst r = Raise x /\ log (snd r) = log w
  | Ret None => (exists data', fst r = Ret data') /\ log (snd r) = log w
  | Ret (Some (days, lp)) =>
      (exists data', fst r = Ret data')
      /\ exists l,
           log (snd r)
           = l ++ Reminder key (Creator.creator_id c) days
                    (Creator.guild_name c) lp (dm_ok e (Creator.creator_id c))
                  :: log w
           /\ forall k, reminders_for k l = O
  end.
Proof.
  intros Hday. cbv zeta.
  pose proof (check_creator_obs key c data e w) as Hobs. cbv zeta in Hobs.
  rewrite (decide_reminder_on_day D) in Hobs by apply Hday.
  destruct (verdict D c) as [[[days lp]|]|x].
  - destruct (dm_ok e (Creator.creator_id c)).
    + destruct (Dict.get key (creators data)) as [c0|].
      * destruct Hobs as (n & Hr & Hw). split; [eauto|].
        destruct (write_fails e); destruct Hw as [_ Hl].
        -- exists []. split; [exact Hl | reflexivity].
        -- eexists [_]. split; [exact Hl | reflexivity].
      * destruct Hobs as (Hr & _ & Hl). split; [eauto|].
        exists []. split; [exact Hl | reflexivity].
    + destruct Hobs as (Hr & _ & Hl). split; [eauto|].
      exists []. split; [exact Hl | reflexivity].
  - destruct Hobs as (Hr & _ & Hl). split; [eauto | exact Hl].
  - destruct Hobs as (Hr & _ & Hl). split; [exact Hr | exact Hl].
Qed.

Lemma reminders_for_app k l l' :
  reminders_for k (l ++ l') = (reminders_for k l + reminders_for k l')%nat.
Proof. unfold reminders_for. now rewrite filter_app, List.length_app. Qed.

Lemma reminders_for_cons k ev l :
  reminders_for k (ev :: l)
  = ((if is_reminder_for k ev then 1 else 0) + reminders_for k l)%nat.
Proof.
  unfold reminders_for. cbn [filter].
  now destruct (is_reminder_for k ev).
Qed.

(** The pass sends what [expected] counts and ends as [pass_result] says. *)
Lemma reminder_loop_on_day D k items :
  forall data e w,
    on_day D e ->
    reminders_for k (log (snd (reminder_loop items data e w)))
    = (expected k D items + reminders_for k (log w))%nat
    /\ fst (reminder_loop items data e w) = pass_result D items.
Proof.
  induction items as [|[key c] rest IH]; intros data e w Hday;
    cbn [reminder_loop expected pass_result]; [now split|].
  unfold bind.
  pose proof (check_creator_on_day D key c data e w Hday) as Hc. cbv zeta in Hc.
  destruct (check_creator key c data e w) as [r w1]. cbn [fst snd] in Hc.
  destruct (verdict D c) as [[[days lp]|]|x].
  - destruct Hc as ((data' & ->) & l & Hl & Hnone).
    destruct (IH data' e w1 Hday) as [Hcount Hres].
    split; [|exact Hres].
    rewrite Hcount, Hl, reminders_for_app, Hnone, reminders_for_cons.
    cbn [is_reminder_for]. destruct (String.eqb key k); lia.
  - destruct Hc as ((data' & ->) & Hl).
    destruct (IH data' e w1 Hday) as [Hcount Hres].
    split; [|exact Hres]. now rewrite Hcount, Hl.
  - destruct Hc as (-> & Hl). cbn [fst snd]. now rewrite Hl.
Qed.

Lemma check_reminders_on_day D k e w d :
  on_day D e -> read_fails e = false -> file w = Some d ->
  reminders_for k (log (snd (check_reminders e w)))
  = (expected k D (creators d) + reminders_for k (log w))%nat
  /\ fst (check_reminders e w) = pass_result D (creators d).
Proof.
  intros Hday Hr Hf. unfold check_reminders, bind.
  rewrite (load_data_ok e w d Hr Hf).
  destruct (reminder_loop_on_day D k (creators d) d e (logged (Load true) w) Hday)
    as [Hcount Hres].
  split; [exact Hcount | exact Hres].
Qed.

Lemma dict_get_none_keys {K V} `{EqKey K} (k : K) (d : dict K V) :
  ~ In k (Dict.keys d) -> Dict.get k d = None.
Proof.
  intros Hni. destruct (Dict.get k d) as [v|] eqn:Hg; [|reflexivity].
  exfalso. apply Hni. apply DictFacts.mem_keys. unfold Dict.mem. now rewrite Hg.
Qed.

Lemma expected_absent k D items : ~ In k (Dict.keys items) -> expected k D items = O.
Proof.
  induction items as [|[key c] rest IH]; cbn [expected Dict.keys map fst];
    [reflexivity|].
  intros Hni. change (map fst rest) with (Dict.keys rest) in Hni.
  assert (Hne : String.eqb key k = false).
  { apply String.eqb_neq. intros ->. apply Hni. now left. }
  rewrite Hne, IH by (intros Hin; apply Hni; now right).
  now destruct (verdict D c) as [[[? ?]|]|?].
Qed.

(** A record that the pass does not find due gets no reminder. *)
Lemma expected_not_due k c D items :
  NoDup (Dict.keys items) -> Dict.get k items = Some c ->
  (forall days lp, verdict D c <> Ret (Some (days, lp))) ->
  expected k D items = O.
Proof.
  induction items as [|[key c0] rest IH];
    cbn [expected Dict.get Dict.keys map fst]; [discriminate|].
  change (map fst rest) with (Dict.keys rest).
  intros Hnd Hg Hnot. inversion Hnd as [|? ? Hni Hnd']; subst.
  change (keqb k key) with (String.eqb k key) in Hg.
  destruct (String.eqb_spec k key) as [->|Hne].
  - injection Hg as ->.
    destruct (verdict D c) as [[[days lp]|]|x] eqn:Hv.
    + exfalso. now apply (Hnot days lp).
    + now apply expected_absent.
    + reflexivity.
  - assert (Hne' : String.eqb key k = false)
      by (apply String.eqb_neq; congruence).
    rewrite Hne', IH by assumption.
    now destruct (verdict D c0) as [[[? ?]|]|?].
Qed.

(** A record that the pass finds due gets one reminder when the pass
    completes. *)
Lemma expected_due k c D items days lp :
  NoDup (Dict.keys items) -> Dict.get k items = Some c ->
  verdict D c = Ret (Some (days, lp)) ->
  pass_result D items = Ret tt ->
  expected k D items = 1%nat.
Proof.
  induction items as [|[key c0] rest IH];
    cbn [expected pass_result Dict.get Dict.keys map fst]; [discriminate|].
  change (map fst rest) with (Dict.keys rest).
  intros Hnd Hg Hv Hpass. inversion Hnd as [|? ? Hni Hnd']; subst.
  change (keqb k key) with (String.eqb k key) in Hg.
  destruct (String.eqb_spec k key) as [->|Hne].
  - injection Hg as ->. rewrite Hv, String.eqb_refl.
    now rewrite expected_absent.
  - assert (Hne' : String.eqb key k = false)
      by (apply String.eqb_neq; congruence).
    rewrite Hne'.
    destruct (verdict D c0) as [[[? ?]|]|?]; [| |discriminate];
      now rewrite IH.
Qed.


Lemma verdict_recent_post D c p :
  Creator.last_posted c = Some (Ymd p) -> D - p < REMINDER_DAYS ->
  verdict D c = Ret None.
Proof.
  unfold verdict, decide_reminder. intros -> Hlt. cbn [truthy strptime].
  rewrite days_between_midnight, date_of_midnight.
  destruct (Z.leb_spec REMINDER_DAYS (D - p)); [lia | reflexivity].
Qed.

Lemma verdict_recent_reminder D c p r :
  Creator.last_posted c = Some (Ymd p) ->
  Creator.last_reminded c = Some (Ymd r) ->
  D - r < REMINDER_DAYS ->
  verdict D c = Ret None.
Proof.
  unfold verdict, decide_reminder. intros -> -> Hlt. cbn [truthy strptime].
  rewrite !days_between_midnight, date_of_midnight.
  destruct (REMINDER_DAYS <=? D - p); [|reflexivity].
  destruct (Z.ltb_spec (D - r) REMINDER_DAYS); [reflexivity | lia].
Qed.



(* ================================================================== *)
(** ** Stored dates that do not parse *)

Lemma truthy_unparsable f : unparsable f -> truthy f = true.
Proof.
  intros (s & -> & Hs). destruct s as [|a s]; [contradiction | reflexivity].
Qed.

Lemma verdict_poisoned D c : poisoned D c -> verdict D c = Raise ValueError.
Proof.
  unfold verdict, decide_reminder.
  intros [(s & Hlp & Hs) | (p & Hlp & Hge & s & Hlr & Hs)]; rewrite Hlp.
  - destruct s as [|a s]; [contradiction | reflexivity].
  - cbn [truthy strptime].
    rewrite days_between_midnight, date_of_midnight.
    destruct (Z.leb_spec REMINDER_DAYS (D - p)); [|lia].
    rewrite Hlr. destruct s as [|a s]; [contradiction | reflexivity].
Qed.

Lemma verdict_raises D c x : verdict D c = Raise x -> x = ValueError.
Proof.
  unfold verdict, decide_reminder.
  destruct (Creator.last_posted c) as [[p|[|a s]]|]; cbn [truthy strptime];
    try discriminate; try (now intros [= <-]).
  destruct (REMINDER_DAYS <=? _); [|discriminate].
  destruct (Creator.last_reminded c) as [[r|[|a s]]|]; cbn [truthy strptime];
    try discriminate; try (now intros [= <-]).
  destruct (_ <? _); discriminate.
Qed.

Lemma pass_result_stops D pre k c post :
  verdict D c = Raise ValueError ->
  pass_result D (pre ++ (k, c) :: post) = Raise ValueError.
Proof.
  intros Hv. induction pre as [|[k0 c0] pre IH]; cbn [app pass_result].
  - now rewrite Hv.
  - destruct (verdict D c0) as [o|x] eqn:Hv0; [exact IH|].
    now rewrite (verdict_raises D c0 x Hv0).
Qed.

Lemma expected_stops k' D pre k c post :
  verdict D c = Raise ValueError ->
  expected k' D (pre ++ (k, c) :: post) = expected k' D pre.
Proof.
  intros Hv. induction pre as [|[k0 c0] pre IH]; cbn [app expected].
  - now rewrite Hv.
  - destruct (verdict D c0) as [[[? ?]|]|x]; [now rewrite IH | exact IH | reflexivity].
Qed.

(** C8, as the code has it.  In a pass that runs within day [D] over a
    data file it can read, a record with a non-empty [last_posted] that
    does not parse (or, once its last post is [REMINDER_DAYS] or more days
    old, a non-empty [last_reminded] that does not parse) makes the pass
    raise [ValueError]: the reminders sent are those of a pass over the
    records in front of it, and a record that only comes after it gets no
    reminder. *)
Theorem check_reminders_stops_at_unparsable_date :
  forall (D : Z) (e : env) (w : world) (d : snapshot)
         (pre post : list (string * Creator.t)) (k : string) (c : Creator.t),
    on_day D e ->
    read_fails e = false ->
    file w = Some d ->
    creators d = pre ++ (k, c) :: post ->
    poisoned D c ->
    fst (check_reminders e w) = Raise ValueError
    /\ (forall k',
          reminders_for k' (log (snd (check_reminders e w)))
          = (expected k' D pre + reminders_for k' (log w))%nat)
    /\ (forall k',
          ~ In k' (Dict.keys pre) ->
          reminders_for k' (log (snd (check_reminders e w)))
          = reminders_for k' (log w)).
Proof.
  intros D e w d pre post k c Hday Hr Hf Hsplit Hbad.
  pose proof (verdict_poisoned D c Hbad) as Hv.
  assert (Hall : forall k',
             reminders_for k' (log (snd (check_reminders e w)))
             = (expected k' D pre + reminders_for k' (log w))%nat).
  { intros k'.
    destruct (check_reminders_on_day D k' e w d Hday Hr Hf) as [Hcount _].
    now rewrite Hcount, Hsplit, expected_stops. }
  split; [|split; [exact Hall|]].
  - destruct (check_reminders_on_day D k e w d Hday Hr Hf) as [_ Hres].
    now rewrite Hres, Hsplit, pass_result_stops.
  - intros k' Hni. now rewrite Hall, expected_absent.
Qed.

(* ================================================================== *)
(** ** What a reminder leaves in the data file *)

Lemma in_keys {K V} (k : K) (v : V) (d : dict K V) :
  In (k, v) d -> In k (Dict.keys d).
Proof. intros Hin. unfold Dict.keys. apply in_map_iff. now exists (k, v). Qed.

Lemma reminder_loop_file_on_day D items :
  forall data e w,
    on_day D e -> write_fails e = false ->
    file w = Some data ->
    NoDup (Dict.keys items) ->
    (forall k c, In (k, c) items -> Dict.get k (creators data) = Some c) ->
    fst (reminder_loop items data e w) = Ret tt ->
    exists d',
      file (snd (reminder_loop items data e w)) = Some d'
      /\ forall k,
           Dict.get k (creators d')
           = match Dict.get k items with
             | Some c => Some (reminded D e c)
             | None => Dict.get k (creators data)
             end.
Proof.
  induction items as [|[key c] rest IH];
    intros data e w Hday Hwr Hf Hnd Hrec Hdone.
  - exists data. split; [exact Hf | reflexivity].
  - cbn [reminder_loop] in *. unfold bind in *.
    inversion Hnd as [|? ? Hni Hnd']; subst.
    change (map fst rest) with (Dict.keys rest) in *.
    pose proof (check_creator_obs key c data e w) as Hobs. cbv zeta in Hobs.
    rewrite (decide_reminder_on_day D) in Hobs by apply Hday.
    rewrite (Hrec key c (or_introl eq_refl)), Hwr in Hobs.
    assert (Hrest : forall k c0, In (k, c0) rest -> k <> key).
    { intros k c0 Hin ->. apply Hni. now apply (in_keys key c0). }
    destruct (check_creator key c data e w) as [r w1]. cbn [fst snd] in *.
    assert (Hstep : forall data1,
               r = Ret data1 -> file w1 = Some data1 ->
               Dict.get key (creators data1) = Some (reminded D e c) ->
               (forall k, k <> key ->
                          Dict.get k (creators data1) = Dict.get k (creators data)) ->
               exists d',
                 file (snd (match r with
                            | Ret a => reminder_loop rest a e w1
                            | Raise x => (Raise x, w1)
                            end)) = Some d'
                 /\ forall k,
                      Dict.get k (creators d')
                      = match Dict.get k ((key, c) :: rest) with
                        | Some c0 => Some (reminded D e c0)
                        | None => Dict.get k (creators data)
                        end).
    { intros data1 Hr1 Hf1 Hkey Hother. subst r.
      destruct (IH data1 e w1 Hday Hwr Hf1 Hnd') as (d' & Hd' & Hget).
      - intros k c0 Hin. rewrite Hother by now apply (Hrest k c0).
        apply Hrec. now right.
      - exact Hdone.
      - exists d'. split; [exact Hd'|]. intros k. rewrite Hget.
        cbn [Dict.get]. change (keqb k key) with (String.eqb k key).
        destruct (String.eqb_spec k key) as [->|Hne].
        + now rewrite (dict_get_none_keys key rest Hni).
        + destruct (Dict.get k rest); [reflexivity | now apply Hother]. }
    unfold reminded in Hstep.
    destruct (verdict D c) as [[[days lp]|]|x].
    + destruct (dm_ok e (Creator.creator_id c)).
      * destruct Hobs as (n & Hr1 & Hf1 & _).
        unfold strftime in Hr1, Hf1. rewrite Hday in Hr1, Hf1.
        apply (Hstep _ Hr1 Hf1).
        -- unfold marked. cbn [creators set_creators].
           apply DictFacts.get_set_same.
        -- intros k Hne. unfold marked. cbn [creators set_creators].
           now apply DictFacts.get_set_other.
      * destruct Hobs as (Hr1 & Hf1 & _). rewrite Hf in Hf1.
        apply (Hstep _ Hr1 Hf1); [apply Hrec; now left | reflexivity].
    + destruct Hobs as (Hr1 & Hf1 & _). rewrite Hf in Hf1.
      apply (Hstep _ Hr1 Hf1); [apply Hrec; now left | reflexivity].
    + destruct Hobs as (Hr1 & _). rewrite Hr1 in Hdone. discriminate.
Qed.

(** C5, as the code has it.  In a completed pass on day [D], with the data
    file readable and writable, a record found due has [last_reminded]
    set to the day of the pass when its reminder was delivered, and is
    left as it was, [last_reminded] included, when the delivery failed. *)
Theorem check_reminders_marks_delivered_only :
  forall (D : Z) (e : env) (w : world) (d : snapshot) (k : string)
         (c : Creator.t) (days : Z) (lp : date_str),
    on_day D e ->
    read_fails e = false ->
    write_fails e = false ->
    file w = Some d ->
    NoDup (Dict.keys (creators d)) ->
    Dict.get k (creators d) = Some c ->
    verdict D c = Ret (Some (days, lp)) ->
    fst (check_reminders e w) = Ret tt ->
    exists d',
      file (snd (check_reminders e w)) = Some d'
      /\ Dict.get k (creators d')
         = Some (if dm_ok e (Creator.creator_id c)
                 then Creator.set_last_reminded (Some (Ymd D)) c
                 else c).
Proof.
  intros D e w d k c days lp Hday Hr Hwr Hf Hnd Hg Hv Hdone.
  unfold check_reminders, bind in *.
  rewrite (load_data_ok e w d Hr Hf) in *.
  destruct (reminder_loop_file_on_day D (creators d) d e (logged (Load true) w)
              Hday Hwr Hf Hnd) as (d' & Hd' & Hget).
  - intros k0 c0 Hin. now apply DictFacts.In_get.
  - exact Hdone.
  - exists d'. split; [exact Hd'|]. rewrite Hget, Hg.
    unfold reminded. now rewrite Hv.
Qed.

(* ================================================================== *)
(** ** The date an event is credited under *)

(** A first qualifying message of the day, with the file readable and
    writable: the file ends up holding the credited snapshot. *)
Lemma on_message_credit_file message g channel_data d e w :
  Message.author_bot message = false ->
  Message.guild message = Some g ->
  read_fails e = false ->
  write_fails e = false ->
  file w = Some d ->
  Dict.get (Message.channel_id message) (tracked_channels d) = Some channel_data ->
  has_posted_keyword (Message.content message) = true ->
  Dict.mem (strftime (clock e (ticks w)))
    (post_log (make_key (Guild.id g) (Channel.creator_id channel_data)) d)
    = false ->
  file (snd (on_message message e w))
  = Some (credited message g channel_data d (clock e (ticks w))
            (clock e (S (ticks w))) (clock e (S (S (ticks w))))).
Proof.
  intros Hbot Hg Hr Hwr Hf Hch Hkw Hnew.
  unfold on_message. rewrite Hbot, Hg.
  unfold bind at 1. rewrite (load_data_ok e w d Hr Hf).
  rewrite Hch, Hkw. unfold bind at 1.
  rewrite track_post_new by exact Hnew. cbv zeta. rewrite Hwr.
  cbn [logged ticks file log].
  match goal with
  | |- context [send_confirmation ?k ?n ?c e ?w0] =>
      pose proof (keeps_file_confirmation k n c e w0) as Hkeep;
      destruct (send_confirmation k n c e w0) as [[u|x] w1]
  end; simpl in *; exact Hkeep.
Qed.

Lemma on_message_created_at message ts e w :
  on_message (Message.set_created_at ts message) e w = on_message message e w.
Proof. destruct message. reflexivity. Qed.

(** C6, as the code has it.  An accepted event is credited under the
    calendar date at which the handler reads the clock: the handler never
    looks at the timestamp the message carries, and the entry added to the
    post log and [last_posted] are both the date of processing. *)
Theorem on_message_credits_processing_date :
  forall (message : Message.t) (ts : datetime) (g : Guild.t)
         (channel_data : Channel.t) (d : snapshot) (e : env) (w : world),
    Message.author_bot message = false ->
    Message.guild message = Some g ->
    read_fails e = false ->
    write_fails e = false ->
    file w = Some d ->
    Dict.get (Message.channel_id message) (tracked_channels d) = Some channel_data ->
    has_posted_keyword (Message.content message) = true ->
    let key := make_key (Guild.id g) (Channel.creator_id channel_data) in
    let today := strftime (clock e (ticks w)) in
    Dict.mem today (post_log key d) = false ->
    on_message (Message.set_created_at ts message) e w = on_message message e w
    /\ exists d' c',
         file (snd (on_message (Message.set_created_at ts message) e w)) = Some d'
         /\ Dict.keys (post_log key d') = Dict.keys (post_log key d) ++ [today]
         /\ Dict.get key (creators d') = Some c'
         /\ Creator.last_posted c' = Some today.
Proof.
  intros message ts g cd d e w Hbot Hg Hr Hwr Hf Hch Hkw key today Hnew.
  split; [apply on_message_created_at|].
  rewrite on_message_created_at.
  rewrite (on_message_credit_file message g cd d e w) by assumption.
  eexists. eexists. split; [reflexivity|].
  rewrite post_log_credited. fold key. rewrite String.eqb_refl.
  cbn [credited creators]. fold key. rewrite DictFacts.get_set_same.
  split; [|split; [reflexivity|]].
  - unfold credited_log. fold key. now apply DictFacts.keys_set_absent.
  - unfold credited_record. now rewrite update_streak_last_posted.
Qed.

(* ================================================================== *)
(** ** Window counts *)

Lemma cutoff_first_day now days x :
  (minus_days now days <=? midnight x) = (first_day_counted now days <=? x).
Proof.
  unfold first_day_counted, minus_days, midnight.
  pose proof (time_of_day_range now) as Hr.
  pose proof (datetime_split now) as Hs.
  assert (HU : 0 < us_per_day) by (unfold us_per_day; lia).
  destruct (Z.eqb_spec (time_of_day now) 0) as [H0|H0].
  - destruct (Z.leb_spec (date_of now - days) x);
      destruct (Z.leb_spec (now - days * us_per_day) (x * us_per_day));
      try reflexivity; exfalso; nia.
  - destruct (Z.leb_spec (date_of now - days + 1) x);
      destruct (Z.leb_spec (now - days * us_per_day) (x * us_per_day));
      try reflexivity; exfalso; nia.
Qed.

Lemma count_since_dates cutoff lo dates :
  (forall x, (cutoff <=? midnight x) = (lo <=? x)) ->
  (forall s, In s dates -> exists x, s = Ymd x) ->
  forall count,
    count_since cutoff dates count
    = Ret (count + Z.of_nat (List.length (filter (is_date_from lo) dates))).
Proof.
  intros Hcut. induction dates as [|s rest IH]; intros Hwf count;
    cbn [count_since filter List.length].
  - now rewrite Z.add_0_r.
  - destruct (Hwf s (or_introl eq_refl)) as (x & ->).
    cbn [strptime is_date_from]. rewrite Hcut.
    rewrite IH by (intros s Hs; apply Hwf; now right).
    destruct (lo <=? x); cbn [List.length]; f_equal; lia.
Qed.

Lemma get_posts_in_period_eq key days d e w :
  read_fails e = false -> file w = Some d ->
  get_posts_in_period key days e w
  = match Dict.get key (posts d) with
    | Some plog =>
        (count_since (minus_days (clock e (ticks w)) days) (Dict.keys plog) 0,
         {| file := file w; ticks := S (ticks w); log := Load true :: log w |})
    | None => (Ret 0, logged (Load true) w)
    end.
Proof.
  intros Hr Hf. unfold get_posts_in_period, bind at 1.
  rewrite (load_data_ok e w d Hr Hf).
  now destruct (Dict.get key (posts d)).
Qed.


(* ================================================================== *)
(** ** Failures of the persistence layer *)







(* ================================================================== *)
(** ** A server, a creator and a week of posts *)

Lemma date_of_noon D : date_of (noon D) = D.
Proof.
  unfold date_of, noon. rewrite Z.div_add_l by (unfold us_per_day; lia).
  unfold us_per_day. rewrite Z.div_small by lia. lia.
Qed.

Lemma on_day_at_noon D r wr dm : on_day D (at_noon D r wr dm).
Proof. intros n. apply date_of_noon. Qed.

(** The scenario of the specification: three days in a row give a streak
    of 3; after the gap of day 104 the streak is 1 and the best streak
    stays 3; a second message on day 105 changes nothing. *)
Example scenario_three_days :
  Dict.get "10_77" (creators (stored world_103))
  = Some (Creator.set_last_posted (Some (Ymd 103))
            (Creator.set_total_posts 3
               (Creator.set_current_streak 3 ann_on_day_105))).
Proof. vm_compute. reflexivity. Qed.

Example scenario_after_gap :
  Dict.get "10_77" (creators (stored world_105)) = Some ann_on_day_105.
Proof. vm_compute. reflexivity. Qed.

Example scenario_duplicate :
  file (after (OnMessage (ann_posted 105)) (calm 105) world_105) = file world_105.
Proof. vm_compute. reflexivity. Qed.

Example keyword_found : has_posted_keyword "All DONE for today" = true.
Proof. reflexivity. Qed.

Example keyword_missing : has_posted_keyword "see you tomorrow" = false.
Proof. reflexivity. Qed.

Lemma world_105_reachable : reachable world_105.
Proof. repeat apply reachable_step. apply reachable_initial. Qed.


(* ================================================================== *)
(** ** The theorems on the week of posts *)

(** A second "Posted!" on day 105. *)
Lemma on_message_same_day_duplicate_witness :
  on_message (ann_posted 105) (calm 105) world_105
  = (Ret tt,
     {| file := Some (stored world_105);
        ticks := S (S (ticks world_105));
        log := ProcessCommands (Message.content (ann_posted 105))
               :: AlreadyTracked :: Load true :: log world_105 |}).
Proof.
  apply (on_message_same_day_duplicate (ann_posted 105) creators_guild
           ann_registration (stored world_105) ann_entry_105 (calm 105)
           world_105); reflexivity.
Defined.



Lemma on_message_ignores_bots_and_dms_witness :
  on_message from_a_bot (calm 101) world_100 = (Ret tt, world_100)
  /\ on_message direct_message (calm 101) world_100 = (Ret tt, world_100).
Proof.
  split.
  - apply (on_message_ignores_bots_and_dms from_a_bot (calm 101) world_100).
    left. reflexivity.
  - apply (on_message_ignores_bots_and_dms direct_message (calm 101) world_100).
    right. reflexivity.
Defined.

(* ================================================================== *)
(** ** An event stamped the day before *)

(** C6, the claim as stated fails: a message the platform stamped on day
    104 and the bot handles on day 105 is credited under day 105; day 104
    stays out of the post log. *)
Lemma on_message_out_of_order_counterexample :
  date_of (Message.created_at (ann_posted 104)) = 104
  /\ let w' := after (OnMessage (ann_posted 104)) (calm 105) world_103 in
     Dict.keys (post_log "10_77" (stored w'))
     = [Ymd 101; Ymd 102; Ymd 103; Ymd 105]
     /\ Dict.mem (Ymd 104) (post_log "10_77" (stored w')) = false
     /\ option_map Creator.last_posted (Dict.get "10_77" (creators (stored w')))
        = Some (Some (Ymd 105))
     /\ option_map Creator.current_streak (Dict.get "10_77" (creators (stored w')))
        = Some 1.
Proof. vm_compute. repeat split; reflexivity. Qed.

Lemma on_message_credits_processing_date_witness :
  on_message (Message.set_created_at (noon 104) (ann_posted 105)) (calm 105) world_103
  = on_message (ann_posted 105) (calm 105) world_103
  /\ exists d' c',
       file (snd (on_message (Message.set_created_at (noon 104) (ann_posted 105))
                    (calm 105) world_103)) = Some d'
       /\ Dict.keys (post_log "10_77" d')
          = Dict.keys (post_log "10_77" (stored world_103)) ++ [Ymd 105]
       /\ Dict.get "10_77" (creators d') = Some c'
       /\ Creator.last_posted c' = Some (Ymd 105).
Proof.
  apply (on_message_credits_processing_date (ann_posted 105) (noon 104)
           creators_guild ann_registration (stored world_103) (calm 105)
           world_103); reflexivity.
Defined.

(* ================================================================== *)
(** ** A post seven days old *)



(** On day 108 at noon the window of 7 days holds the posts of days 102,
    103 and 105. *)
Example week_count_on_day_108 :
  fst (get_posts_in_period "10_77" 7 (calm 108) world_105) = Ret 3.
Proof. vm_compute. reflexivity. Qed.

(* ================================================================== *)
(** ** A data file that cannot be read, or written *)



(* ================================================================== *)
(** ** A reminder that cannot be delivered *)

(** C5, the claim as stated fails: on day 108 ann's last post is 3 days
    old and she cannot be sent a DM; the pass tries, leaves
    [last_reminded] unset, and the pass twelve hours later tries again. *)
Lemma undelivered_reminder_counterexample :
  let e := at_noon 108 false false false in
  let w' := after CheckReminders e world_105 in
  let w'' := after CheckReminders e w' in
  log w' = [Reminder "10_77" "77" 3 "Creators" (Ymd 105) false; Load true]
           ++ log world_105
  /\ option_map Creator.last_reminded (Dict.get "10_77" (creators (stored w')))
     = Some None
  /\ reminders_for "10_77" (log w') = 1%nat
  /\ reminders_for "10_77" (log w'') = 2%nat.
Proof. vm_compute. repeat split; reflexivity. Qed.

Lemma check_reminders_marks_delivered_only_witness :
  (exists d',
     file (snd (check_reminders (at_noon 108 false false false) world_105)) = Some d'
     /\ Dict.get "10_77" (creators d') = Some ann_on_day_105)
  /\ (exists d',
        file (snd (check_reminders (calm 108) world_105)) = Some d'
        /\ Dict.get "10_77" (creators d')
           = Some (Creator.set_last_reminded (Some (Ymd 108)) ann_on_day_105)).
Proof.
  split.
  - apply (check_reminders_marks_delivered_only 108
             (at_noon 108 false false false) world_105 (stored world_105)
             "10_77" ann_on_day_105 3 (Ymd 105));
      try reflexivity; try apply on_day_at_noon.
    repeat constructor. intros [].
  - apply (check_reminders_marks_delivered_only 108 (calm 108) world_105
             (stored world_105) "10_77" ann_on_day_105 3 (Ymd 105));
      try reflexivity; try apply on_day_at_noon.
    repeat constructor. intros [].
Defined.

(* ================================================================== *)
(** ** A pass over several creators *)



(** C8, the claim as stated fails: with a [last_posted] that does not
    parse in the first record, the pass of day 108 raises and the lapsed
    creator behind it gets no reminder; with that field absent she gets
    one. *)
Lemma unparsable_date_counterexample :
  let bad := check_reminders (calm 108) (holding garbled_first) in
  let absent := check_reminders (calm 108) (holding absent_first) in
  fst bad = Raise ValueError
  /\ reminders_for "10_3" (log (snd bad)) = 0%nat
  /\ fst absent = Ret tt
  /\ reminders_for "10_3" (log (snd absent)) = 1%nat.
Proof. vm_compute. repeat split; reflexivity. Qed.

Lemma check_reminders_stops_at_unparsable_date_witness :
  fst (check_reminders (calm 108) (holding garbled_first)) = Raise ValueError
  /\ (forall k',
        reminders_for k' (log (snd (check_reminders (calm 108) (holding garbled_first))))
        = (expected k' 108 [] + reminders_for k' (log (holding garbled_first)))%nat)
  /\ (forall k',
        ~ In k' (Dict.keys (@nil (string * Creator.t))) ->
        reminders_for k' (log (snd (check_reminders (calm 108) (holding garbled_first))))
        = reminders_for k' (log (holding garbled_first))).
Proof.
  apply (check_reminders_stops_at_unparsable_date 108 (calm 108)
           (holding garbled_first)
           {| tracked_channels := []; creators := garbled_first; posts := [] |}
           [] [("10_3", lapsed)] "10_4" garbled);
    try reflexivity; try apply on_day_at_noon.
  left. exists "yesterday". split; [reflexivity | discriminate].
Defined.

(* ================================================================== *)
(** ** The vocabulary of "posted" messages *)

Lemma prefix_trans p q : forall s,
  String.prefix p q = true -> String.prefix q s = true -> String.prefix p s = true.
Proof.
  revert p. induction q as [|b q IH]; intros p s Hpq Hqs.
  - destruct p as [|a p]; [now destruct s | discriminate].
  - destruct p as [|a p]; [now destruct s|].
    destruct s as [|c s]; [discriminate|].
    cbn [String.prefix] in *.
    destruct (ascii_dec a b) as [->|]; [|discriminate].
    destruct (ascii_dec b c) as [->|]; [|discriminate].
    now apply IH.
Qed.

Lemma is_infix_prefix p q s :
  String.prefix p q = true -> is_infix q s = true -> is_infix p s = true.
Proof.
  intros Hpq. induction s as [|c s IH]; cbn [is_infix]; intros Hq.
  - apply orb_true_iff in Hq. destruct Hq as [Hq|Hq]; [|discriminate].
    now rewrite (prefix_trans p q "" Hpq Hq).
  - apply orb_true_iff in Hq. destruct Hq as [Hq|Hq].
    + now rewrite (prefix_trans p q _ Hpq Hq).
    + rewrite (IH Hq). apply orb_true_r.
Qed.

Lemma prefix_append p s : String.prefix p (p ++ s)%string = true.
Proof.
  induction p as [|a p IH]; [now destruct s|].
  cbn [String.append String.prefix].
  now destruct (ascii_dec a a).
Qed.

Lemma is_infix_of_prefix p s : String.prefix p s = true -> is_infix p s = true.
Proof. intros Hp. destruct s; cbn [is_infix]; now rewrite Hp. Qed.

Lemma is_infix_append a p b : is_infix p (a ++ p ++ b)%string = true.
Proof.
  induction a as [|c a IH]; cbn [String.append].
  - apply is_infix_of_prefix, prefix_append.
  - cbn [is_infix]. rewrite IH. apply orb_true_r.
Qed.

Lemma lower_append a b : lower (a ++ b)%string = (lower a ++ lower b)%string.
Proof. induction a as [|c a IH]; cbn [String.append lower]; now rewrite ?IH. Qed.

(** X1. Of the five keywords only three decide: a message qualifies exactly
    when its lower-cased text contains "posted", "done" or "uploaded";
    "posted for today" and "posted today" can never add a match. *)
Theorem has_posted_keyword_three_words :
  forall content : string,
    has_posted_keyword content
    = (is_infix "posted" (lower content)
       || is_infix "done" (lower content)
       || is_infix "uploaded" (lower content))%bool.
Proof.
  intros content. unfold has_posted_keyword, posted_keywords.
  cbn [existsb].
  destruct (is_infix "posted" (lower content)) eqn:Hp; [reflexivity|].
  destruct (is_infix "posted for today" (lower content)) eqn:H1.
  - rewrite (is_infix_prefix "posted" "posted for today" _ eq_refl H1) in Hp.
    discriminate.
  - destruct (is_infix "posted today" (lower content)) eqn:H2.
    + rewrite (is_infix_prefix "posted" "posted today" _ eq_refl H2) in Hp.
      discriminate.
    + cbn [orb]. now rewrite !orb_false_r.
Qed.

(** X2. The match is a substring match that ignores letter case: a text
    that has a keyword anywhere inside it, in any mix of upper and lower
    case, inside a longer word or not, qualifies. *)
Theorem has_posted_keyword_anywhere :
  forall before word after : string,
    In (lower word) posted_keywords ->
    has_posted_keyword (before ++ word ++ after)%string = true.
Proof.
  intros before word after Hin. unfold has_posted_keyword.
  apply existsb_exists. exists (lower word). split; [exact Hin|].
  rewrite !lower_append. apply is_infix_append.
Qed.

Lemma has_posted_keyword_anywhere_witness :
  has_posted_keyword ("I aban" ++ "DoNe" ++ "d it")%string = true.
Proof.
  apply (has_posted_keyword_anywhere "I aban" "DoNe" "d it").
  right. left. reflexivity.
Defined.

(* ================================================================== *)
(** ** Messages that are not credited *)

(** X3. A message of a user in a server that arrives in a channel without
    registration, or that has no keyword, writes nothing and reads no
    clock; the data file was opened once and the message goes on to
    command processing. *)
Theorem on_message_passes_ordinary_chat :
  forall (message : Message.t) (g : Guild.t) (e : env) (w : world),
    Message.author_bot message = false ->
    Message.guild message = Some g ->
    Dict.get (Message.channel_id message) (tracked_channels (loaded e w)) = None
    \/ has_posted_keyword (Message.content message) = false ->
    exists ok,
      on_message message e w
      = (Ret tt,
         {| file := file w; ticks := ticks w;
            log := ProcessCommands (Message.content message)
                   :: Load ok :: log w |}).
Proof.
  intros message g e w Hbot Hg Hno.
  destruct (load_data_loaded e w) as [ok Hload]. exists ok.
  unfold on_message. rewrite Hbot, Hg.
  unfold bind at 1. rewrite Hload.
  destruct Hno as [Hch | Hkw].
  - rewrite Hch. reflexivity.
  - rewrite Hkw.
    now destruct (Dict.get (Message.channel_id message)
                    (tracked_channels (loaded e w))).
Qed.

Lemma on_message_passes_ordinary_chat_witness :
  exists ok,
    on_message (ann_posted 101) (calm 101) initial_world
    = (Ret tt,
       {| file := file initial_world; ticks := ticks initial_world;
          log := ProcessCommands (Message.content (ann_posted 101))
                 :: Load ok :: log initial_world |}).
Proof.
  apply (on_message_passes_ordinary_chat (ann_posted 101) creators_guild
           (calm 101) initial_world); try reflexivity.
  left. reflexivity.
Defined.

(* ================================================================== *)
(** ** Registration of a channel that has one *)

(** X4. [setup_channel] in a channel that is already tracked changes
    nothing: no clock reading, no save, only the notice that names the
    creator the channel is tracking, whoever the command was for. *)
Theorem setup_channel_already_tracked :
  forall (ctx : Ctx.t) (member : Member.t) (reg : Channel.t) (e : env) (w : world),
    Dict.get (Ctx.channel_id ctx) (tracked_channels (loaded e w)) = Some reg ->
    exists ok,
      setup_channel ctx member e w
      = (Ret tt,
         {| file := file w; ticks := ticks w;
            log := ChannelAlreadySetup (Channel.creator_name reg)
                   :: Load ok :: log w |}).
Proof.
  intros ctx member reg e w Hch.
  destruct (load_data_loaded e w) as [ok Hload]. exists ok.
  unfold setup_channel, bind at 1. rewrite Hload, Hch. reflexivity.
Qed.

Lemma setup_channel_already_tracked_witness :
  exists ok,
    setup_channel ann_channel bob (calm 106) world_105
    = (Ret tt,
       {| file := file world_105; ticks := ticks world_105;
          log := ChannelAlreadySetup (Channel.creator_name ann_registration)
                 :: Load ok :: log world_105 |}).
Proof.
  apply (setup_channel_already_tracked ann_channel bob ann_registration
           (calm 106) world_105).
  reflexivity.
Defined.

(* ================================================================== *)
(** ** Edges of the window count *)

(** X5. For a key without a post log, and whenever the data file cannot
    be read, [get_posts_in_period] returns 0 without reading the clock. *)
Theorem get_posts_in_period_without_log :
  forall (key : string) (days : Z) (e : env) (w : world),
    Dict.get key (posts (loaded e w)) = None ->
    exists ok, get_posts_in_period key days e w = (Ret 0, logged (Load ok) w).
Proof.
  intros key days e w Hnone.
  destruct (load_data_loaded e w) as [ok Hload]. exists ok.
  unfold get_posts_in_period, bind at 1. rewrite Hload, Hnone. reflexivity.
Qed.

Lemma get_posts_in_period_without_log_witness :
  exists ok,
    get_posts_in_period "10_77" 7 (at_noon 106 true false true) world_105
    = (Ret 0, logged (Load ok) world_105).
Proof.
  apply (get_posts_in_period_without_log "10_77" 7
           (at_noon 106 true false true) world_105).
  reflexivity.
Defined.

Lemma count_since_malformed cutoff s dates :
  In (Malformed s) dates ->
  forall count, count_since cutoff dates count = Raise ValueError.
Proof.
  induction dates as [|[x|s'] rest IH]; cbn [In count_since strptime];
    intros Hin count.
  - contradiction.
  - destruct Hin as [Hin|Hin]; [discriminate | now apply IH].
  - reflexivity.
Qed.


(* ================================================================== *)
(** ** Well-kept snapshots *)

Lemma nodup_keys_set {K V} `{EqKey K} (k : K) (v : V) (d : dict K V) :
  NoDup (Dict.keys d) -> NoDup (Dict.keys (Dict.set k v d)).
Proof.
  induction d as [|[k0 v0] d IH]; cbn [Dict.set Dict.keys map fst].
  - intros _. repeat constructor. intros [].
  - change (map fst d) with (Dict.keys d).
    intros Hnd. inversion Hnd as [|? ? Hni Hnd']; subst.
    destruct (keqb k k0) eqn:E; cbn [map fst];
      change (map fst d) with (Dict.keys d);
      change (map fst (Dict.set k v d)) with (Dict.keys (Dict.set k v d)).
    + now constructor.
    + constructor; [|now apply IH].
      intros Hin. apply DictFacts.mem_keys in Hin.
      rewrite dict_mem_set in Hin. rewrite (keqb_neq k0 k) in Hin.
      * apply Hni. now apply DictFacts.mem_keys.
      * intros ->. rewrite keqb_refl in E. discriminate.
Qed.

Lemma in_keys_del {K V} `{EqKey K} (k k' : K) (d : dict K V) :
  In k' (Dict.keys (Dict.del k d)) -> In k' (Dict.keys d).
Proof.
  induction d as [|[k0 v0] d IH]; cbn [Dict.del Dict.keys map fst]; [tauto|].
  destruct (keqb k k0); cbn [map fst]; intros Hin.
  - now right.
  - destruct Hin as [Hin|Hin]; [now left | right; now apply IH].
Qed.

Lemma nodup_keys_del {K V} `{EqKey K} (k : K) (d : dict K V) :
  NoDup (Dict.keys d) -> NoDup (Dict.keys (Dict.del k d)).
Proof.
  induction d as [|[k0 v0] d IH]; cbn [Dict.del Dict.keys map fst]; [auto|].
  intros Hnd. inversion Hnd as [|? ? Hni Hnd']; subst.
  destruct (keqb k k0); cbn [map fst]; [exact Hnd'|].
  constructor; [|now apply IH].
  intros Hin. apply Hni. now apply (in_keys_del k).
Qed.

Lemma dict_get_del_same {K V} `{EqKey K} (k : K) (d : dict K V) :
  NoDup (Dict.keys d) -> Dict.get k (Dict.del k d) = None.
Proof.
  induction d as [|[k0 v0] d IH]; cbn [Dict.del Dict.get Dict.keys map fst];
    [reflexivity|].
  intros Hnd. inversion Hnd as [|? ? Hni Hnd']; subst.
  destruct (keqb k k0) eqn:E.
  - apply keqb_eq in E. subst k0. now apply dict_get_none_keys.
  - cbn [Dict.get]. rewrite E. now apply IH.
Qed.

Lemma dict_del_set_absent {K V} `{EqKey K} (k : K) (v : V) (d : dict K V) :
  Dict.mem k d = false -> Dict.del k (Dict.set k v d) = d.
Proof.
  unfold Dict.mem. induction d as [|[k0 v0] d IH]; cbn [Dict.get Dict.set Dict.del].
  - now rewrite keqb_refl.
  - destruct (keqb k k0) eqn:E; [discriminate|].
    intros Hm. cbn [Dict.del]. rewrite E. now rewrite IH.
Qed.

Lemma length_set_absent {K V} `{EqKey K} (k : K) (v : V) (d : dict K V) :
  Dict.mem k d = false -> List.length (Dict.set k v d) = S (List.length d).
Proof.
  unfold Dict.mem. induction d as [|[k0 v0] d IH]; cbn [Dict.get Dict.set List.length];
    [reflexivity|].
  destruct (keqb k k0) eqn:E; [discriminate|].
  intros Hm. cbn [List.length]. now rewrite IH.
Qed.

Lemma marks_keys d d' : marks d d' -> Dict.keys (creators d') = Dict.keys (creators d).
Proof.
  intros (_ & _ & Hall). unfold Dict.keys.
  induction Hall as [|[k c] [k' c'] l l' [Hk _] _ IH]; cbn [map fst]; [reflexivity|].
  cbn [fst] in Hk. now rewrite Hk, IH.
Qed.

Lemma update_streak_total b c :
  Creator.total_posts (update_streak b c) = Creator.total_posts c.
Proof.
  unfold update_streak.
  destruct b; match goal with |- context [if ?t then _ else _] => destruct t end;
    reflexivity.
Qed.

Lemma update_streak_best_max b c :
  Creator.best_streak (update_streak b c)
  = Z.max (Creator.best_streak c) (Creator.current_streak (update_streak b c)).
Proof.
  unfold update_streak.
  destruct b;
    cbn [Creator.current_streak Creator.best_streak Creator.set_current_streak];
    match goal with |- context [if ?x <? ?y then _ else _] =>
      destruct (Z.ltb_spec x y) end; cbn; lia.
Qed.

Lemma distinct_keys_empty : distinct_keys empty_data.
Proof. repeat split; try constructor. Qed.

Lemma distinct_keys_writes e d d' :
  distinct_keys d -> writes e d d' -> distinct_keys d'.
Proof.
  intros (Ht & Hc & Hp & Hl) Hw.
  destruct Hw as [message g cd n Hnew|ctx member n|ctx|d' Hm].
  - repeat split; cbn [credited tracked_channels creators posts];
      try assumption; try now apply nodup_keys_set.
    intros k. rewrite post_log_credited.
    destruct (String.eqb k _); [|apply Hl].
    unfold credited_log. apply nodup_keys_set, Hl.
  - unfold registered, ensure_creator. cbn [creators set_tracked_channels].
    destruct (negb _); repeat split;
      cbn [tracked_channels creators posts set_creators set_tracked_channels];
      try assumption; try now apply nodup_keys_set.
  - repeat split; cbn [tracked_channels creators posts set_tracked_channels];
      try assumption. now apply nodup_keys_del.
  - pose proof (marks_keys d d' Hm) as Hk. destruct Hm as (Ht' & Hp' & _).
    unfold distinct_keys, post_log in *. rewrite Ht', Hp', Hk.
    repeat split; assumption.
Qed.

Lemma counters_ok_empty : counters_ok empty_data.
Proof. intros k. split; [intros s []|reflexivity]. Qed.

Lemma counters_ok_writes e d d' :
  counters_ok d -> writes e d d' -> counters_ok d'.
Proof.
  intros Hok Hw k. destruct (Hok k) as [Hdates Hrec].
  destruct Hw as [message g cd n Hnew|ctx member n|ctx|d' Hm].
  - set (key := make_key (Guild.id g) (Channel.creator_id cd)) in *.
    rewrite post_log_credited. fold key. cbn [credited creators]. fold key.
    destruct (String.eqb_spec k key) as [->|Hne].
    + rewrite DictFacts.get_set_same. split.
      * unfold credited_log. fold key.
        rewrite DictFacts.keys_set_absent by exact Hnew.
        intros s Hs. apply in_app_or in Hs. destruct Hs as [Hs|[<-|[]]].
        -- now apply Hdates.
        -- unfold strftime. eauto.
      * unfold credited_log. fold key.
        rewrite length_set_absent by exact Hnew.
        unfold credited_record.
        rewrite update_streak_best_max, update_streak_current, update_streak_total.
        cbn [Creator.total_posts Creator.best_streak Creator.current_streak
             Creator.set_name Creator.set_last_posted Creator.set_total_posts].
        fold key. unfold record_of.
        destruct (Dict.get key (creators d)) as [c0|].
        -- destruct Hrec as (H0 & Hcb & Hbt & Htot).
           rewrite Nat2Z.inj_succ, <- Htot.
           destruct (Dict.mem (strftime (minus_days _ 1)) _); lia.
        -- rewrite Hrec. cbn [List.length Creator.fresh Creator.total_posts
                               Creator.best_streak Creator.current_streak].
           destruct (Dict.mem (strftime (minus_days _ 1)) _); lia.
    + now rewrite DictFacts.get_set_other by exact Hne.
  - unfold registered, ensure_creator. cbn [creators set_tracked_channels].
    destruct (Dict.mem _ (creators d)) eqn:Hmem; cbn [negb];
      [split; assumption|].
    unfold post_log in *. cbn [posts creators set_creators set_tracked_channels].
    split; [exact Hdates|].
    destruct (String.eqb_spec k
                (make_key (Guild.id (Ctx.guild ctx)) (Member.id member)))
      as [->|Hne].
    + rewrite DictFacts.get_set_same. unfold Dict.mem in Hmem.
      destruct (Dict.get _ (creators d)); [discriminate|].
      rewrite Hrec. cbn. lia.
    + now rewrite DictFacts.get_set_other by exact Hne.
  - split; assumption.
  - assert (Hlog : post_log k d' = post_log k d).
    { unfold post_log. destruct Hm as (_ & -> & _). reflexivity. }
    rewrite Hlog. split; [exact Hdates|].
    destruct (Dict.get k (creators d')) as [c'|] eqn:Hg'.
    + destruct (marks_get_new d d' k c' Hm Hg') as (c & Hg & Hc).
      rewrite Hg in Hrec. rewrite Hc. exact Hrec.
    + destruct (Dict.get k (creators d)) as [c|] eqn:Hg; [|exact Hrec].
      destruct (marks_get_old d d' k c Hm Hg) as (c' & Hg'' & _).
      rewrite Hg' in Hg''. discriminate.
Qed.

Lemma reachable_distinct_keys w d :
  reachable w -> file w = Some d -> distinct_keys d.
Proof.
  intros Hr. revert d. revert w Hr.
  apply reachable_invariant; [apply distinct_keys_empty | apply distinct_keys_writes].
Qed.

Lemma reachable_counters_ok w d :
  reachable w -> file w = Some d -> counters_ok d.
Proof.
  intros Hr. revert d. revert w Hr.
  apply reachable_invariant; [apply counters_ok_empty | apply counters_ok_writes].
Qed.

(** X7. In every state the bot can reach, whatever the clock and the I/O
    failures on the way, a record's [total_posts] is the number of
    entries of its post log, and
    [0 <= current_streak <= best_streak <= total_posts]. *)
Theorem counters_follow_the_post_log :
  forall (w : world) (d : snapshot) (k : string) (c : Creator.t),
    reachable w ->
    file w = Some d ->
    Dict.get k (creators d) = Some c ->
    Creator.total_posts c = Z.of_nat (List.length (post_log k d))
    /\ 0 <= Creator.current_streak c
    /\ Creator.current_streak c <= Creator.best_streak c
    /\ Creator.best_streak c <= Creator.total_posts c.
Proof.
  intros w d k c Hr Hd Hg.
  destruct (reachable_counters_ok w d Hr Hd k) as [_ Hrec].
  rewrite Hg in Hrec. tauto.
Qed.

Lemma counters_follow_the_post_log_witness :
  Creator.total_posts ann_on_day_105
  = Z.of_nat (List.length (post_log "10_77" (stored world_105)))
  /\ 0 <= Creator.current_streak ann_on_day_105
  /\ Creator.current_streak ann_on_day_105 <= Creator.best_streak ann_on_day_105
  /\ Creator.best_streak ann_on_day_105 <= Creator.total_posts ann_on_day_105.
Proof.
  apply (counters_follow_the_post_log world_105 (stored world_105) "10_77"
           ann_on_day_105 world_105_reachable); reflexivity.
Defined.

(* ================================================================== *)
(** ** What each handler leaves alone *)

(** X8. [on_message] never touches the channel registrations, and of the
    records and post logs it can only change those of the key made of the
    message's server and the creator registered for its channel: every
    other key, the same creator in another server included, keeps its
    record and its log. *)
Theorem on_message_touches_one_key :
  forall (message : Message.t) (e : env) (w : world) (d d' : snapshot)
         (k : string),
    file w = Some d ->
    file (snd (on_message message e w)) = Some d' ->
    (forall g channel_data,
        Message.guild message = Some g ->
        Dict.get (Message.channel_id message) (tracked_channels d)
          = Some channel_data ->
        k <> make_key (Guild.id g) (Channel.creator_id channel_data)) ->
    tracked_channels d' = tracked_channels d
    /\ Dict.get k (creators d') = Dict.get k (creators d)
    /\ Dict.get k (posts d') = Dict.get k (posts d).
Proof.
  intros message e w d d' k Hd Hd' Hother.
  destruct (on_message_file message e w)
    as [Hsame|(g & cd & _ & _ & _ & Hg & Hch & _ & Hnew)].
  - rewrite Hsame, Hd in Hd'. injection Hd' as <-. now repeat split.
  - assert (Hloaded : loaded e w = d).
    { unfold loaded in *. destruct (read_fails e); [discriminate|].
      now rewrite Hd in *. }
    rewrite Hloaded in *. rewrite Hnew in Hd'. injection Hd' as <-.
    specialize (Hother g cd Hg Hch). cbn [credited tracked_channels creators posts].
    rewrite !DictFacts.get_set_other by exact Hother. now repeat split.
Qed.

Lemma on_message_touches_one_key_witness :
  tracked_channels (stored world_105) = tracked_channels (stored world_103)
  /\ Dict.get "11_77" (creators (stored world_105))
     = Dict.get "11_77" (creators (stored world_103))
  /\ Dict.get "11_77" (posts (stored world_105))
     = Dict.get "11_77" (posts (stored world_103)).
Proof.
  apply (on_message_touches_one_key (ann_posted 105) (calm 105) world_103
           (stored world_103) (stored world_105) "11_77"); try reflexivity.
  intros g cd Hg Hch. injection Hg as <-. vm_compute in Hch.
  injection Hch as <-. discriminate.
Defined.

Lemma setup_channel_saves ctx member e w :
  Dict.get (Ctx.channel_id ctx) (tracked_channels (loaded e w)) = None ->
  write_fails e = false ->
  fst (setup_channel ctx member e w) = Ret tt
  /\ file (snd (setup_channel ctx member e w))
     = Some (registered ctx member (loaded e w)
               (clock e (ticks w)) (clock e (S (ticks w)))).
Proof.
  intros Hch Hwr.
  remember (setup_channel ctx member e w) as r eqn:Hr.
  unfold setup_channel in Hr.
  destruct (load_data_loaded e w) as [ok Hload].
  unfold bind at 1 in Hr. rewrite Hload, Hch in Hr.
  unfold bind at 1 in Hr. unfold datetime_now at 1 in Hr.
  cbn [logged ticks file log] in Hr.
  unfold bind at 1 in Hr. unfold registered, ensure_creator.
  cbn [creators set_tracked_channels] in *.
  destruct (negb (Dict.mem _ (creators (loaded e w)))).
  - unfold bind at 1 in Hr. unfold datetime_now at 1 in Hr.
    cbn [logged ticks file log ret] in Hr.
    unfold bind, save_data, emit in Hr. rewrite Hwr in Hr.
    subst r. split; reflexivity.
  - cbn [ret] in Hr. unfold bind, save_data, emit in Hr. rewrite Hwr in Hr.
    subst r. split; reflexivity.
Qed.

Lemma unsetup_channel_saves ctx e w :
  Dict.mem (Ctx.channel_id ctx) (tracked_channels (loaded e w)) = true ->
  write_fails e = false ->
  fst (unsetup_channel ctx e w) = Ret tt
  /\ file (snd (unsetup_channel ctx e w))
     = Some (set_tracked_channels
               (Dict.del (Ctx.channel_id ctx) (tracked_channels (loaded e w)))
               (loaded e w)).
Proof.
  intros Hch Hwr.
  remember (unsetup_channel ctx e w) as r eqn:Hr.
  unfold unsetup_channel in Hr.
  destruct (load_data_loaded e w) as [ok Hload].
  unfold bind at 1 in Hr. rewrite Hload in Hr. unfold Dict.mem in Hch.
  destruct (Dict.get (Ctx.channel_id ctx) (tracked_channels (loaded e w)));
    [|discriminate].
  unfold bind, save_data, emit in Hr. rewrite Hwr in Hr.
  subst r. split; reflexivity.
Qed.

Lemma registered_keeps ctx member d t0 t1 :
  posts (registered ctx member d t0 t1) = posts d
  /\ forall k c, Dict.get k (creators d) = Some c ->
                 Dict.get k (creators (registered ctx member d t0 t1)) = Some c.
Proof.
  unfold registered, ensure_creator. cbn [creators set_tracked_channels].
  destruct (Dict.mem _ (creators d)) eqn:Hmem; cbn [negb]; split;
    try reflexivity; try (intros k c Hg; exact Hg).
  intros k c Hg. cbn [creators set_creators set_tracked_channels].
  rewrite DictFacts.get_set_other; [exact Hg|].
  intros ->. unfold Dict.mem in Hmem. rewrite Hg in Hmem. discriminate.
Qed.

(** X9. The registration commands never touch the statistics: when the
    data file can be read, [setup_channel] and [unsetup_channel] leave
    every post log and every existing creator record as they are, so a
    creator whose channel is removed and set up again keeps totals and
    streaks. *)
Theorem registration_keeps_statistics :
  forall (ctx : Ctx.t) (member : Member.t) (e : env) (w : world)
         (d : snapshot),
    read_fails e = false ->
    file w = Some d ->
    (forall d', file (snd (setup_channel ctx member e w)) = Some d' ->
       posts d' = posts d
       /\ forall k c, Dict.get k (creators d) = Some c ->
                      Dict.get k (creators d') = Some c)
    /\ (forall d', file (snd (unsetup_channel ctx e w)) = Some d' ->
          posts d' = posts d /\ creators d' = creators d).
Proof.
  intros ctx member e w d Hr Hd.
  pose proof (loaded_ok e w d Hr Hd) as Hl. split; intros d' Hd'.
  - destruct (setup_channel_file ctx member e w) as [Hs|(_ & _ & _ & Hs)];
      rewrite Hs in Hd'.
    + rewrite Hd in Hd'. injection Hd' as <-. split; auto.
    + rewrite Hl in Hd'. injection Hd' as <-. apply registered_keeps.
  - destruct (unsetup_channel_file ctx e w) as [Hs|(_ & _ & Hs)];
      rewrite Hs in Hd'.
    + rewrite Hd in Hd'. injection Hd' as <-. split; auto.
    + rewrite Hl in Hd'. injection Hd' as <-. split; reflexivity.
Qed.

Lemma registration_keeps_statistics_witness :
  (forall d', file (snd (setup_channel bob_channel ann (calm 106) world_105)) = Some d' ->
     posts d' = posts (stored world_105)
     /\ forall k c, Dict.get k (creators (stored world_105)) = Some c ->
                    Dict.get k (creators d') = Some c)
  /\ (forall d', file (snd (unsetup_channel ann_channel (calm 106) world_105)) = Some d' ->
        posts d' = posts (stored world_105)
        /\ creators d' = creators (stored world_105)).
Proof.
  split.
  - exact (proj1 (registration_keeps_statistics bob_channel ann (calm 106)
                    world_105 (stored world_105) eq_refl eq_refl)).
  - exact (proj2 (registration_keeps_statistics ann_channel ann (calm 106)
                    world_105 (stored world_105) eq_refl eq_refl)).
Defined.

(** X10. Setting a channel up and removing it again, with nothing in
    between, gives the channel registrations back as they were; the post
    logs are untouched, and the creator's record, created by the setup if
    there was none, stays. *)
Theorem setup_then_unsetup :
  forall (ctx : Ctx.t) (member : Member.t) (e1 e2 : env) (w : world)
         (d : snapshot),
    read_fails e1 = false -> write_fails e1 = false ->
    read_fails e2 = false -> write_fails e2 = false ->
    file w = Some d ->
    Dict.mem (Ctx.channel_id ctx) (tracked_channels d) = false ->
    let w2 := after (UnsetupChannel ctx) e2 (after (SetupChannel ctx member) e1 w) in
    exists d2,
      file w2 = Some d2
      /\ tracked_channels d2 = tracked_channels d
      /\ posts d2 = posts d
      /\ Dict.mem (make_key (Guild.id (Ctx.guild ctx)) (Member.id member))
           (creators d2) = true
      /\ forall k c, Dict.get k (creators d) = Some c ->
                     Dict.get k (creators d2) = Some c.
Proof.
  intros ctx member e1 e2 w d Hr1 Hw1 Hr2 Hw2 Hd Hnew. cbv zeta.
  unfold after. cbn [step].
  pose proof (loaded_ok e1 w d Hr1 Hd) as Hl1.
  assert (Hch : Dict.get (Ctx.channel_id ctx) (tracked_channels (loaded e1 w)) = None).
  { rewrite Hl1. unfold Dict.mem in Hnew.
    now destruct (Dict.get (Ctx.channel_id ctx) (tracked_channels d)). }
  destruct (setup_channel_saves ctx member e1 w Hch Hw1) as [_ Hf1].
  rewrite Hl1 in Hf1.
  set (w1 := snd (setup_channel ctx member e1 w)) in *.
  set (d1 := registered ctx member d (clock e1 (ticks w)) (clock e1 (S (ticks w)))) in *.
  pose proof (loaded_ok e2 w1 d1 Hr2 Hf1) as Hl2.
  assert (Ht1 : tracked_channels d1
                = Dict.set (Ctx.channel_id ctx)
                    {| Channel.creator_id := Member.id member;
                       Channel.creator_name := Member.name member;
                       Channel.guild_id := Guild.id (Ctx.guild ctx);
                       Channel.guild_name := Guild.name (Ctx.guild ctx);
                       Channel.setup_by := Ctx.author_id ctx;
                       Channel.setup_date := strftime (clock e1 (ticks w)) |}
                    (tracked_channels d)).
  { unfold d1, registered. now rewrite ensure_creator_tracked. }
  assert (Hin : Dict.mem (Ctx.channel_id ctx) (tracked_channels (loaded e2 w1)) = true).
  { rewrite Hl2, Ht1. unfold Dict.mem. now rewrite DictFacts.get_set_same. }
  destruct (unsetup_channel_saves ctx e2 w1 Hin Hw2) as [_ Hf2].
  rewrite Hl2 in Hf2. eexists. split; [exact Hf2|].
  cbn [tracked_channels posts creators set_tracked_channels].
  destruct (registered_keeps ctx member d (clock e1 (ticks w))
              (clock e1 (S (ticks w)))) as [Hp Hc]. fold d1 in Hp, Hc.
  rewrite Ht1. rewrite dict_del_set_absent by exact Hnew.
  repeat split; try assumption.
  unfold d1, registered. unfold Dict.mem. now rewrite ensure_creator_get.
Qed.

Lemma setup_then_unsetup_witness :
  let w2 := after (UnsetupChannel bob_channel) (calm 107)
              (after (SetupChannel bob_channel bob) (calm 106) world_105) in
  exists d2,
    file w2 = Some d2
    /\ tracked_channels d2 = tracked_channels (stored world_105)
    /\ posts d2 = posts (stored world_105)
    /\ Dict.mem (make_key (Guild.id (Ctx.guild bob_channel)) (Member.id bob))
         (creators d2) = true
    /\ forall k c, Dict.get k (creators (stored world_105)) = Some c ->
                   Dict.get k (creators d2) = Some c.
Proof.
  apply (setup_then_unsetup bob_channel bob (calm 106) (calm 107) world_105
           (stored world_105)); reflexivity.
Defined.

(** X11. Once [unsetup_channel] has removed a channel, the channel has no
    registration and no message in it is credited any more, whatever its
    text, while every record and post log is kept. *)
Theorem unsetup_channel_stops_tracking :
  forall (ctx : Ctx.t) (e : env) (w : world) (d : snapshot),
    reachable w ->
    read_fails e = false -> write_fails e = false ->
    file w = Some d ->
    Dict.mem (Ctx.channel_id ctx) (tracked_channels d) = true ->
    let w1 := after (UnsetupChannel ctx) e w in
    (exists d1,
        file w1 = Some d1
        /\ Dict.get (Ctx.channel_id ctx) (tracked_channels d1) = None
        /\ creators d1 = creators d /\ posts d1 = posts d)
    /\ forall (message : Message.t) (e' : env),
         Message.channel_id message = Ctx.channel_id ctx ->
         file (after (OnMessage message) e' w1) = file w1.
Proof.
  intros ctx e w d Hreach Hr Hwr Hd Hin. cbv zeta. unfold after. cbn [step].
  pose proof (loaded_ok e w d Hr Hd) as Hl.
  rewrite <- Hl in Hin.
  destruct (unsetup_channel_saves ctx e w Hin Hwr) as [_ Hf1].
  rewrite Hl in Hf1.
  destruct (reachable_distinct_keys w d Hreach Hd) as (Hnd & _).
  assert (Hgone : Dict.get (Ctx.channel_id ctx)
                    (Dict.del (Ctx.channel_id ctx) (tracked_channels d)) = None)
    by now apply dict_get_del_same.
  split.
  - eexists. split; [exact Hf1|]. now repeat split.
  - intros message e' Hsame.
    destruct (on_message_file message e' (snd (unsetup_channel ctx e w)))
      as [Hs|(g & cd & _ & _ & _ & _ & Hch & _)]; [exact Hs|].
    exfalso. unfold loaded in Hch. rewrite Hf1, Hsame in Hch.
    destruct (read_fails e'); [discriminate|].
    cbn [tracked_channels set_tracked_channels] in Hch.
    rewrite Hgone in Hch. discriminate.
Qed.

Lemma unsetup_channel_stops_tracking_witness :
  let w1 := after (UnsetupChannel ann_channel) (calm 106) world_105 in
  (exists d1,
      file w1 = Some d1
      /\ Dict.get (Ctx.channel_id ann_channel) (tracked_channels d1) = None
      /\ creators d1 = creators (stored world_105)
      /\ posts d1 = posts (stored world_105))
  /\ forall (message : Message.t) (e' : env),
       Message.channel_id message = Ctx.channel_id ann_channel ->
       file (after (OnMessage message) e' w1) = file w1.
Proof.
  apply (unsetup_channel_stops_tracking ann_channel (calm 106) world_105
           (stored world_105) world_105_reachable); reflexivity.
Defined.

Lemma check_reminders_marks e w d d' :
  read_fails e = false -> file w = Some d ->
  file (snd (check_reminders e w)) = Some d' -> marks d d'.
Proof.
  intros Hr Hd Hd'.
  destruct (check_reminders_file e w) as [Hs|(df & Hs & Hm)];
    rewrite Hs in Hd'.
  - rewrite Hd in Hd'. injection Hd' as <-. apply marks_refl.
  - injection Hd' as <-. now rewrite (loaded_ok e w d Hr Hd) in Hm.
Qed.

(** X12. The reminder pass writes nothing but [last_reminded]: whatever it
    saves has the channel registrations and the post logs of the snapshot
    it loaded, the same creators in the same order, and each record equal
    to the loaded one but for its [last_reminded]. *)
Theorem check_reminders_writes_last_reminded_only :
  forall (e : env) (w : world) (d d' : snapshot),
    read_fails e = false ->
    file w = Some d ->
    file (snd (check_reminders e w)) = Some d' ->
    tracked_channels d' = tracked_channels d
    /\ posts d' = posts d
    /\ Dict.keys (creators d') = Dict.keys (creators d)
    /\ forall k c', Dict.get k (creators d') = Some c' ->
         exists c, Dict.get k (creators d) = Some c
                   /\ c' = Creator.set_last_reminded (Creator.last_reminded c') c.
Proof.
  intros e w d d' Hr Hd Hd'.
  pose proof (check_reminders_marks e w d d' Hr Hd Hd') as Hm.
  pose proof (marks_keys d d' Hm) as Hk.
  destruct Hm as (Ht & Hp & Hall). repeat split; try assumption.
  intros k c' Hg. apply (marks_get_new d d' k c'); [|exact Hg].
  now repeat split.
Qed.

Lemma check_reminders_writes_last_reminded_only_witness :
  let d' := stored (after CheckReminders (calm 108) world_105) in
  tracked_channels d' = tracked_channels (stored world_105)
  /\ posts d' = posts (stored world_105)
  /\ Dict.keys (creators d') = Dict.keys (creators (stored world_105))
  /\ forall k c', Dict.get k (creators d') = Some c' ->
       exists c, Dict.get k (creators (stored world_105)) = Some c
                 /\ c' = Creator.set_last_reminded (Creator.last_reminded c') c.
Proof.
  cbv zeta.
  apply (check_reminders_writes_last_reminded_only (calm 108) world_105
           (stored world_105)
           (stored (after CheckReminders (calm 108) world_105)));
    vm_compute; reflexivity.
Defined.

(* ================================================================== *)
(** ** Passes that follow a reminder or a post *)

Lemma verdict_due_inv D c days lp :
  verdict D c = Ret (Some (days, lp)) ->
  exists p, Creator.last_posted c = Some (Ymd p) /\ lp = Ymd p
            /\ days = D - p /\ REMINDER_DAYS <= D - p.
Proof.
  unfold verdict, decide_reminder.
  destruct (Creator.last_posted c) as [[p|[|a s]]|]; cbn [truthy strptime];
    try discriminate.
  rewrite !days_between_midnight, date_of_midnight.
  destruct (Z.leb_spec REMINDER_DAYS (D - p)); [|discriminate].
  intros Hv. exists p.
  destruct (Creator.last_reminded c) as [[r|[|a s]]|]; cbn [truthy strptime] in Hv;
    try discriminate;
    try (injection Hv as <- <-; now repeat split).
  destruct (_ <? _); [discriminate|].
  injection Hv as <- <-. now repeat split.
Qed.

Lemma check_reminders_file_on_day D e w d :
  on_day D e -> read_fails e = false -> write_fails e = false ->
  file w = Some d -> NoDup (Dict.keys (creators d)) ->
  fst (check_reminders e w) = Ret tt ->
  exists d',
    file (snd (check_reminders e w)) = Some d'
    /\ NoDup (Dict.keys (creators d'))
    /\ forall k c, Dict.get k (creators d) = Some c ->
                   Dict.get k (creators d') = Some (reminded D e c).
Proof.
  intros Hday Hr Hwr Hf Hnd Hdone.
  assert (Hex : exists d', file (snd (check_reminders e w)) = Some d'
                  /\ forall k, Dict.get k (creators d')
                       = match Dict.get k (creators d) with
                         | Some c => Some (reminded D e c)
                         | None => Dict.get k (creators d)
                         end).
  { unfold check_reminders, bind in *.
    rewrite (load_data_ok e w d Hr Hf) in *.
    apply (reminder_loop_file_on_day D (creators d) d e (logged (Load true) w));
      try assumption.
    intros k0 c0 Hin. now apply DictFacts.In_get. }
  destruct Hex as (d' & Hd' & Hget). exists d'. split; [exact Hd'|]. split.
  - rewrite (marks_keys d d'); [exact Hnd|].
    now apply (check_reminders_marks e w).
  - intros k c Hg. now rewrite Hget, Hg.
Qed.

(** X13. A creator whose reminder was delivered in a completed pass on day
    [D] gets nothing from the passes of day [D] and of the day after:
    the next reminder can only come [REMINDER_DAYS] days later. *)
Theorem delivered_reminder_is_not_repeated :
  forall (D D' : Z) (e e' : env) (w : world) (d : snapshot) (k : string)
         (c : Creator.t) (days : Z) (lp : date_str),
    on_day D e -> read_fails e = false -> write_fails e = false ->
    file w = Some d ->
    NoDup (Dict.keys (creators d)) ->
    Dict.get k (creators d) = Some c ->
    verdict D c = Ret (Some (days, lp)) ->
    dm_ok e (Creator.creator_id c) = true ->
    fst (check_reminders e w) = Ret tt ->
    on_day D' e' -> read_fails e' = false ->
    D <= D' < D + REMINDER_DAYS ->
    let w' := snd (check_reminders e w) in
    reminders_for k (log w') = S (reminders_for k (log w))
    /\ reminders_for k (log (snd (check_reminders e' w')))
       = reminders_for k (log w').
Proof.
  intros D D' e e' w d k c days lp Hday Hr Hwr Hf Hnd Hg Hv Hdm Hdone
         Hday' Hr' Hnear. cbv zeta.
  split.
  - destruct (check_reminders_on_day D k e w d Hday Hr Hf) as [Hcount Hres].
    rewrite Hcount. rewrite Hres in Hdone.
    now rewrite (expected_due k c D (creators d) days lp Hnd Hg Hv Hdone).
  - destruct (check_reminders_file_on_day D e w d Hday Hr Hwr Hf Hnd Hdone)
      as (d' & Hd' & Hnd' & Hget).
    specialize (Hget k c Hg). unfold reminded in Hget. rewrite Hv, Hdm in Hget.
    destruct (check_reminders_on_day D' k e' _ d' Hday' Hr' Hd') as [Hcount _].
    rewrite Hcount.
    rewrite (expected_not_due k _ D' (creators d') Hnd' Hget); [reflexivity|].
    intros days' lp'.
    destruct (verdict_due_inv D c days lp Hv) as (p & Hlp & _).
    rewrite (verdict_recent_reminder D' _ p D); [discriminate| | |lia].
    + cbn [Creator.last_posted Creator.set_last_reminded]. exact Hlp.
    + reflexivity.
Qed.

Lemma delivered_reminder_is_not_repeated_witness :
  let w' := snd (check_reminders (calm 108) world_105) in
  reminders_for "10_77" (log w') = S (reminders_for "10_77" (log world_105))
  /\ reminders_for "10_77" (log (snd (check_reminders (calm 109) w')))
     = reminders_for "10_77" (log w').
Proof.
  apply (delivered_reminder_is_not_repeated 108 109 (calm 108) (calm 109)
           world_105 (stored world_105) "10_77" ann_on_day_105 3 (Ymd 105));
    try reflexivity; try apply on_day_at_noon.
  - repeat constructor. intros [].
  - unfold REMINDER_DAYS. lia.
Defined.

(** X14. A credited post silences the reminders: after a message credited
    on day [D], the passes of day [D] and of the day after send the
    creator of that key nothing, whatever reminders were due before. *)
Theorem credited_post_silences_reminders :
  forall (D D' : Z) (message : Message.t) (g : Guild.t)
         (channel_data : Channel.t) (d : snapshot) (e e' : env) (w : world),
    reachable w ->
    Message.author_bot message = false ->
    Message.guild message = Some g ->
    read_fails e = false -> write_fails e = false ->
    file w = Some d ->
    Dict.get (Message.channel_id message) (tracked_channels d) = Some channel_data ->
    has_posted_keyword (Message.content message) = true ->
    on_day D e ->
    let key := make_key (Guild.id g) (Channel.creator_id channel_data) in
    Dict.mem (Ymd D) (post_log key d) = false ->
    on_day D' e' -> read_fails e' = false ->
    D <= D' < D + REMINDER_DAYS ->
    let w1 := after (OnMessage message) e w in
    reminders_for key (log (after CheckReminders e' w1))
    = reminders_for key (log w1).
Proof.
  intros D D' message g cd d e e' w Hreach Hbot Hg Hr Hwr Hf Hch Hkw Hday
         key Hnew Hday' Hr' Hnear. cbv zeta. unfold after. cbn [step].
  assert (Hnew' : Dict.mem (strftime (clock e (ticks w))) (post_log key d) = false)
    by (unfold strftime; now rewrite Hday).
  pose proof (on_message_credit_file message g cd d e w Hbot Hg Hr Hwr Hf Hch
                Hkw Hnew') as Hf1.
  set (d1 := credited message g cd d (clock e (ticks w)) (clock e (S (ticks w)))
               (clock e (S (S (ticks w))))) in *.
  assert (Hnd1 : NoDup (Dict.keys (creators d1))).
  { apply (distinct_keys_writes e d d1).
    - now apply (reachable_distinct_keys w).
    - now apply writes_credit. }
  destruct (check_reminders_on_day D' key e' _ d1 Hday' Hr' Hf1) as [Hcount _].
  rewrite Hcount.
  rewrite (expected_not_due key
             (credited_record message g cd d (clock e (ticks w))
                (clock e (S (ticks w))) (clock e (S (S (ticks w)))))
             D' (creators d1) Hnd1); [reflexivity| |].
  - unfold d1. cbn [credited creators]. apply DictFacts.get_set_same.
  - intros days lp.
    destruct (credited_record_streak D message g cd d e (ticks w) Hday Hnew)
      as [Hlp _].
    rewrite (verdict_recent_post D' _ D Hlp); [discriminate | lia].
Qed.

Lemma credited_post_silences_reminders_witness :
  let key := make_key (Guild.id creators_guild) (Channel.creator_id ann_registration) in
  let w1 := after (OnMessage (ann_posted 105)) (calm 105) world_103 in
  reminders_for key (log (after CheckReminders (calm 106) w1))
  = reminders_for key (log w1).
Proof.
  apply (credited_post_silences_reminders 105 106 (ann_posted 105) creators_guild
           ann_registration (stored world_103) (calm 105) (calm 106) world_103);
    try reflexivity; try apply on_day_at_noon.
  - repeat apply reachable_step. apply reachable_initial.
  - unfold REMINDER_DAYS. lia.
Defined.




(* ================================================================== *)
(** ** Window counts against the log *)

Lemma filter_length_mono {A} (f g : A -> bool) (l : list A) :
  (forall x, In x l -> f x = true -> g x = true) ->
  (List.length (filter f l) <= List.length (filter g l))%nat.
Proof.
  induction l as [|x l IH]; cbn [filter List.length]; intros Himp; [lia|].
  assert (IH' : (List.length (filter f l) <= List.length (filter g l))%nat)
    by (apply IH; intros y Hy; apply Himp; now right).
  destruct (f x) eqn:Hf.
  - rewrite (Himp x (or_introl eq_refl) Hf). cbn [List.length]. lia.
  - destruct (g x); cbn [List.length]; lia.
Qed.

Lemma dates_from_mono lo lo' plog :
  lo' <= lo -> dates_from lo plog <= dates_from lo' plog.
Proof.
  intros Hle. unfold dates_from. apply inj_le. apply filter_length_mono.
  intros [x|s] _; cbn [is_date_from]; [|discriminate].
  intros Hx. apply Z.leb_le in Hx. apply Z.leb_le. lia.
Qed.

Lemma dates_from_range lo plog :
  0 <= dates_from lo plog <= Z.of_nat (List.length plog).
Proof.
  unfold dates_from. split; [lia|]. apply inj_le.
  pose proof (filter_length_le (is_date_from lo) (Dict.keys plog)) as Hle.
  unfold Dict.keys in *. now rewrite List.length_map in Hle.
Qed.

Lemma dates_from_counts lo x plog :
  In (Ymd x) (Dict.keys plog) -> lo <= x -> 1 <= dates_from lo plog.
Proof.
  intros Hin Hle. unfold dates_from.
  assert (Hf : In (Ymd x) (filter (is_date_from lo) (Dict.keys plog))).
  { apply filter_In. split; [exact Hin|]. cbn. now apply Z.leb_le. }
  destruct (filter (is_date_from lo) (Dict.keys plog)); [destruct Hf|].
  cbn [List.length]. lia.
Qed.


Lemma first_day_counted_range now days :
  date_of now - days <= first_day_counted now days <= date_of now - days + 1.
Proof. unfold first_day_counted. destruct (_ =? _); lia. Qed.

Lemma get_posts_in_period_present key days d plog e w :
  read_fails e = false -> file w = Some d ->
  Dict.get key (posts d) = Some plog ->
  (forall s, In s (Dict.keys plog) -> exists x, s = Ymd x) ->
  get_posts_in_period key days e w
  = (Ret (dates_from (first_day_counted (clock e (ticks w)) days) plog),
     {| file := file w; ticks := S (ticks w); log := Load true :: log w |}).
Proof.
  intros Hr Hf Hg Hwf.
  rewrite (get_posts_in_period_eq key days d e w Hr Hf), Hg.
  rewrite (count_since_dates _ (first_day_counted (clock e (ticks w)) days))
    by (try apply cutoff_first_day; exact Hwf).
  reflexivity.
Qed.








Lemma get_posts_in_period_raises key days d plog s e w :
  read_fails e = false -> file w = Some d ->
  Dict.get key (posts d) = Some plog ->
  In (Malformed s) (Dict.keys plog) ->
  get_posts_in_period key days e w
  = (Raise ValueError,
     {| file := file w; ticks := S (ticks w); log := Load true :: log w |}).
Proof.
  intros Hr Hf Hg Hin.
  rewrite (get_posts_in_period_eq key days d e w Hr Hf), Hg.
  now rewrite (count_since_malformed _ s).
Qed.

(** X18. When the post log of the key holds a date that does not parse,
    a first qualifying message of the day is still credited and saved,
    with its reaction; then the confirmation raises [ValueError]: no
    "Post Tracked" message is sent and the message never reaches command
    processing. *)
Theorem on_message_saves_then_raises_on_malformed_log :
  forall (message : Message.t) (g : Guild.t) (channel_data : Channel.t)
         (d : snapshot) (s : string) (e : env) (w : world),
    Message.author_bot message = false ->
    Message.guild message = Some g ->
    read_fails e = false -> write_fails e = false ->
    file w = Some d ->
    Dict.get (Message.channel_id message) (tracked_channels d) = Some channel_data ->
    has_posted_keyword (Message.content message) = true ->
    let key := make_key (Guild.id g) (Channel.creator_id channel_data) in
    Dict.mem (strftime (clock e (ticks w))) (post_log key d) = false ->
    In (Malformed s) (Dict.keys (post_log key d)) ->
    let d' := credited message g channel_data d (clock e (ticks w))
                (clock e (S (ticks w))) (clock e (S (S (ticks w)))) in
    on_message message e w
    = (Raise ValueError,
       {| file := Some d'; ticks := 4 + ticks w;
          log := Load true :: AddReaction :: Save d' :: Load true :: log w |}).
Proof.
  intros message g cd d s e w Hbot Hg Hr Hwr Hf Hch Hkw key Hnew Hin. cbv zeta.
  unfold on_message. rewrite Hbot, Hg.
  unfold bind at 1. rewrite (load_data_ok e w d Hr Hf).
  rewrite Hch, Hkw. unfold bind at 1.
  rewrite track_post_new by exact Hnew. cbv zeta. rewrite Hwr.
  cbn [logged ticks file log]. fold key.
  unfold send_confirmation, bind at 1.
  erewrite (get_posts_in_period_raises key 7 _ _ s); try reflexivity;
    try assumption.
  - cbn [credited posts]. fold key. apply DictFacts.get_set_same.
  - unfold credited_log. fold key.
    rewrite DictFacts.keys_set_absent by exact Hnew.
    apply in_or_app. now left.
Qed.

Lemma on_message_saves_then_raises_on_malformed_log_witness :
  let d' := credited (ann_posted 105) creators_guild ann_registration
              (stored hand_edited) (noon 105) (noon 105) (noon 105) in
  on_message (ann_posted 105) (calm 105) hand_edited
  = (Raise ValueError,
     {| file := Some d'; ticks := 4 + ticks hand_edited;
        log := Load true :: AddReaction :: Save d' :: Load true
               :: log hand_edited |}).
Proof.
  apply (on_message_saves_then_raises_on_malformed_log (ann_posted 105)
           creators_guild ann_registration (stored hand_edited) "5 Jan"
           (calm 105) hand_edited); try reflexivity.
  left. reflexivity.
Defined.


(* ================================================================== *)
(** ** What the confirmation shows *)

Lemma on_message_credit_eq message g channel_data d e w :
  Message.author_bot message = false ->
  Message.guild message = Some g ->
  read_fails e = false -> write_fails e = false ->
  file w = Some d ->
  Dict.get (Message.channel_id message) (tracked_channels d) = Some channel_data ->
  has_posted_keyword (Message.content message) = true ->
  let key := make_key (Guild.id g) (Channel.creator_id channel_data) in
  Dict.mem (strftime (clock e (ticks w))) (post_log key d) = false ->
  (forall s, In s (Dict.keys (post_log key d)) -> exists x, s = Ymd x) ->
  let clog := credited_log message g channel_data d (clock e (ticks w))
                (clock e (S (ticks w))) in
  let c' := credited_record message g channel_data d (clock e (ticks w))
              (clock e (S (ticks w))) (clock e (S (S (ticks w)))) in
  let d' := credited message g channel_data d (clock e (ticks w))
              (clock e (S (ticks w))) (clock e (S (S (ticks w)))) in
  on_message message e w
  = (Ret tt,
     {| file := Some d'; ticks := 5 + ticks w;
        log := ProcessCommands (Message.content message)
               :: PostTracked (Guild.name g) (Creator.current_streak c')
                    (dates_from (first_day_counted (clock e (3 + ticks w)) 7) clog)
                    (dates_from (first_day_counted (clock e (4 + ticks w)) 30) clog)
               :: Load true :: Load true :: AddReaction :: Save d'
               :: Load true :: log w |}).
Proof.
  intros Hbot Hg Hr Hwr Hf Hch Hkw key Hnew Hwf. cbv zeta.
  assert (Hwf' : forall s,
             In s (Dict.keys (credited_log message g channel_data d
                                (clock e (ticks w)) (clock e (S (ticks w))))) ->
             exists x, s = Ymd x).
  { unfold credited_log. fold key.
    rewrite DictFacts.keys_set_absent by exact Hnew.
    intros s Hs. apply in_app_or in Hs. destruct Hs as [Hs|[<-|[]]].
    - now apply Hwf.
    - unfold strftime. eauto. }
  unfold on_message. rewrite Hbot, Hg.
  unfold bind at 1. rewrite (load_data_ok e w d Hr Hf).
  rewrite Hch, Hkw. unfold bind at 1.
  rewrite track_post_new by exact Hnew. cbv zeta. rewrite Hwr.
  cbn [logged ticks file log]. fold key.
  set (d' := credited message g channel_data d (clock e (ticks w))
               (clock e (S (ticks w))) (clock e (S (S (ticks w))))) in *.
  set (clog := credited_log message g channel_data d (clock e (ticks w))
                 (clock e (S (ticks w)))) in *.
  assert (Hgp : Dict.get key (posts d') = Some clog)
    by (unfold d'; cbn [credited posts]; apply DictFacts.get_set_same).
  unfold send_confirmation, bind at 1.
  erewrite (get_posts_in_period_present key 7 d' clog)
    by (first [exact Hr | exact Hgp | exact Hwf' | reflexivity]).
  cbn [ticks file log]. unfold bind at 1.
  erewrite (get_posts_in_period_present key 30 d' clog)
    by (first [exact Hr | exact Hgp | exact Hwf' | reflexivity]).
  reflexivity.
Qed.

(** X19. The "Post Tracked" confirmation of a credited post, in a state the
    bot has reached and with an invocation that stays within one day,
    always shows a streak of at least 1 and a week count of at least 1,
    and its week count, month count and the stored [total_posts] come in
    that order. *)
Theorem confirmation_is_consistent :
  forall (D : Z) (message : Message.t) (g : Guild.t) (channel_data : Channel.t)
         (d : snapshot) (e : env) (w : world),
    reachable w ->
    on_day D e ->
    Message.author_bot message = false ->
    Message.guild message = Some g ->
    read_fails e = false -> write_fails e = false ->
    file w = Some d ->
    Dict.get (Message.channel_id message) (tracked_channels d) = Some channel_data ->
    has_posted_keyword (Message.content message) = true ->
    let key := make_key (Guild.id g) (Channel.creator_id channel_data) in
    Dict.mem (Ymd D) (post_log key d) = false ->
    exists d' c' week month,
      on_message message e w
      = (Ret tt,
         {| file := Some d'; ticks := 5 + ticks w;
            log := ProcessCommands (Message.content message)
                   :: PostTracked (Guild.name g) (Creator.current_streak c')
                        week month
                   :: Load true :: Load true :: AddReaction :: Save d'
                   :: Load true :: log w |})
      /\ Dict.get key (creators d') = Some c'
      /\ 1 <= Creator.current_streak c'
      /\ 1 <= week /\ week <= month /\ month <= Creator.total_posts c'.
Proof.
  intros D message g cd d e w Hreach Hday Hbot Hg Hr Hwr Hf Hch Hkw key Hnew.
  assert (Hnew' : Dict.mem (strftime (clock e (ticks w))) (post_log key d) = false)
    by (unfold strftime; now rewrite Hday).
  pose proof (reachable_counters_ok w d Hreach Hf) as Hok.
  destruct (Hok key) as [Hwf Hrec].
  pose proof (on_message_credit_eq message g cd d e w Hbot Hg Hr Hwr Hf Hch Hkw
                Hnew' Hwf) as Heq. cbv zeta in Heq. fold key in Heq.
  set (d' := credited message g cd d (clock e (ticks w)) (clock e (S (ticks w)))
               (clock e (S (S (ticks w))))) in *.
  set (c' := credited_record message g cd d (clock e (ticks w))
               (clock e (S (ticks w))) (clock e (S (S (ticks w))))) in *.
  set (clog := credited_log message g cd d (clock e (ticks w))
                 (clock e (S (ticks w)))) in *.
  assert (Hg' : Dict.get key (creators d') = Some c')
    by (unfold d'; cbn [credited creators]; apply DictFacts.get_set_same).
  assert (Hok' : counters_ok d')
    by (apply (counters_ok_writes e d); [exact Hok | now apply writes_credit]).
  destruct (Hok' key) as [_ Hrec']. rewrite Hg' in Hrec'.
  destruct Hrec' as (_ & _ & _ & Htot).
  assert (Hlog' : post_log key d' = clog).
  { unfold d'. rewrite post_log_credited. fold key.
    now rewrite String.eqb_refl. }
  rewrite Hlog' in Htot.
  exists d', c'. eexists. eexists. split; [exact Heq|].
  split; [exact Hg'|]. repeat split.
  - unfold c', credited_record. rewrite update_streak_current.
    cbn [Creator.current_streak Creator.set_name Creator.set_last_posted
         Creator.set_total_posts]. fold key. unfold record_of.
    destruct (Dict.mem (strftime (minus_days _ 1)) _); [|lia].
    destruct (Dict.get key (creators d)) as [c0|]; [|cbn; lia].
    destruct Hrec as (H0 & _). lia.
  - apply (dates_from_counts _ D).
    + unfold clog, credited_log. fold key.
      rewrite DictFacts.keys_set_absent by exact Hnew'.
      apply in_or_app. right. left. unfold strftime. now rewrite Hday.
    + pose proof (first_day_counted_range (clock e (3 + ticks w)) 7) as Hrng.
      rewrite Hday in Hrng. lia.
  - apply dates_from_mono.
    pose proof (first_day_counted_range (clock e (3 + ticks w)) 7) as H7.
    pose proof (first_day_counted_range (clock e (4 + ticks w)) 30) as H30.
    rewrite Hday in H7, H30. lia.
  - rewrite Htot. apply dates_from_range.
Qed.

Lemma confirmation_is_consistent_witness :
  exists d' c' week month,
    on_message (ann_posted 105) (calm 105) world_103
    = (Ret tt,
       {| file := Some d'; ticks := 5 + ticks world_103;
          log := ProcessCommands (Message.content (ann_posted 105))
                 :: PostTracked (Guild.name creators_guild)
                      (Creator.current_streak c') week month
                 :: Load true :: Load true :: AddReaction :: Save d'
                 :: Load true :: log world_103 |})
    /\ Dict.get (make_key (Guild.id creators_guild)
                   (Channel.creator_id ann_registration)) (creators d') = Some c'
    /\ 1 <= Creator.current_streak c'
    /\ 1 <= week /\ week <= month /\ month <= Creator.total_posts c'.
Proof.
  apply (confirmation_is_consistent 105 (ann_posted 105) creators_guild
           ann_registration (stored world_103) (calm 105) world_103);
    try reflexivity; try apply on_day_at_noon.
  repeat apply reachable_step. apply reachable_initial.
Defined.

(* ================================================================== *)
(** ** The statistics of a creator *)

(** X20. For a creator with a record, in a state the bot has reached and
    with an invocation that stays within one day, [!stats] reads the
    file without writing it and shows the stored counters, with
    [0 <= week <= month <= all time] and
    [current streak <= best streak <= all time]. *)
Theorem individual_stats_are_consistent :
  forall (D : Z) (ctx : Ctx.t) (member : option Member.t) (d : snapshot)
         (c : Creator.t) (e : env) (w : world),
    reachable w ->
    on_day D e ->
    read_fails e = false ->
    file w = Some d ->
    let member_id :=
      match member with Some m => Member.id m | None => Ctx.author_id ctx end in
    Dict.get (make_key (Guild.id (Ctx.guild ctx)) member_id) (creators d) = Some c ->
    exists st,
      fst (individual_stats ctx member e w) = Ret (Some st)
      /\ file (snd (individual_stats ctx member e w)) = file w
      /\ Stats.all_time st = Creator.total_posts c
      /\ Stats.current_streak st = Creator.current_streak c
      /\ Stats.best_streak st = Creator.best_streak c
      /\ Stats.last_posted st = Creator.last_posted c
      /\ 0 <= Stats.week_total st
      /\ Stats.week_total st <= Stats.month_total st
      /\ Stats.month_total st <= Stats.all_time st
      /\ Stats.current_streak st <= Stats.best_streak st
      /\ Stats.best_streak st <= Stats.all_time st.
Proof.
  intros D ctx member d c e w Hreach Hday Hr Hf member_id Hg.
  set (key := make_key (Guild.id (Ctx.guild ctx)) member_id) in *.
  destruct (reachable_counters_ok w d Hreach Hf key) as [Hwf Hrec].
  rewrite Hg in Hrec. destruct Hrec as (H0 & Hcb & Hbt & Htot).
  remember (individual_stats ctx member e w) as r eqn:Hres.
  unfold individual_stats in Hres. fold member_id in Hres. fold key in Hres.
  unfold bind at 1 in Hres. rewrite (load_data_ok e w d Hr Hf), Hg in Hres.
  unfold post_log in Hwf, Htot.
  destruct (Dict.get key (posts d)) as [plog|] eqn:Hp.
  - unfold bind at 1 in Hres.
    erewrite (get_posts_in_period_present key 7 d plog) in Hres
      by (first [exact Hr | exact Hp | exact Hwf | exact Hf]).
    unfold bind at 1 in Hres.
    erewrite (get_posts_in_period_present key 30 d plog) in Hres
      by (first [exact Hr | exact Hp | exact Hwf | exact Hf]).
    subst r. eexists. split; [reflexivity|].
    cbn [fst snd file logged Stats.week_total Stats.month_total Stats.all_time
         Stats.current_streak Stats.best_streak Stats.last_posted ticks].
    repeat split; try assumption; try apply dates_from_range.
    + apply dates_from_mono.
      pose proof (first_day_counted_range (clock e (ticks w)) 7) as H7.
      pose proof (first_day_counted_range (clock e (S (ticks w))) 30) as H30.
      rewrite Hday in H7, H30. lia.
    + rewrite Htot. apply dates_from_range.
  - unfold bind at 1 in Hres.
    erewrite (get_posts_in_period_eq key 7 d) in Hres
      by (first [exact Hr | exact Hf]).
    rewrite Hp in Hres. unfold bind at 1 in Hres.
    erewrite (get_posts_in_period_eq key 30 d) in Hres
      by (first [exact Hr | exact Hf]).
    rewrite Hp in Hres.
    subst r. eexists. split; [reflexivity|].
    cbn [fst snd file logged Stats.week_total Stats.month_total Stats.all_time
         Stats.current_streak Stats.best_streak Stats.last_posted ticks].
    repeat split; try assumption; lia.
Qed.

Lemma individual_stats_are_consistent_witness :
  exists st,
    fst (individual_stats ann_channel (Some ann) (calm 108) world_105) = Ret (Some st)
    /\ file (snd (individual_stats ann_channel (Some ann) (calm 108) world_105))
       = file world_105
    /\ Stats.all_time st = Creator.total_posts ann_on_day_105
    /\ Stats.current_streak st = Creator.current_streak ann_on_day_105
    /\ Stats.best_streak st = Creator.best_streak ann_on_day_105
    /\ Stats.last_posted st = Creator.last_posted ann_on_day_105
    /\ 0 <= Stats.week_total st
    /\ Stats.week_total st <= Stats.month_total st
    /\ Stats.month_total st <= Stats.all_time st
    /\ Stats.current_streak st <= Stats.best_streak st
    /\ Stats.best_streak st <= Stats.all_time st.
Proof.
  apply (individual_stats_are_consistent 108 ann_channel (Some ann)
           (stored world_105) ann_on_day_105 (calm 108) world_105
           world_105_reachable); try reflexivity.
  apply on_day_at_noon.
Defined.

Example stats_on_day_108 :
  fst (individual_stats ann_channel (Some ann) (calm 108) world_105)
  = Ret (Some {| Stats.week_total := 3; Stats.month_total := 4;
                 Stats.all_time := 4; Stats.current_streak := 1;
                 Stats.best_streak := 3; Stats.last_posted := Some (Ymd 105) |}).
Proof. vm_compute. reflexivity. Qed.

(* ================================================================== *)
(** ** The list of tracked channels *)

Lemma mem_ensure_creator k key c d :
  Dict.mem k (creators d) = true ->
  Dict.mem k (creators (ensure_creator key c d)) = true.
Proof.
  intros Hm. unfold ensure_creator. destruct (negb _); [|exact Hm].
  cbn [creators set_creators]. rewrite dict_mem_set, Hm. apply orb_true_r.
Qed.

Lemma tidy_registrations_writes e d d' :
  distinct_keys d /\ registrations_have_records d ->
  writes e d d' ->
  distinct_keys d' /\ registrations_have_records d'.
Proof.
  intros [Hdk Hreg] Hw. split; [now apply (distinct_keys_writes e d)|].
  destruct Hw as [message g cd n Hnew|ctx member n|ctx|d' Hm];
    intros ch reg Hg.
  - cbn [credited tracked_channels creators] in *.
    rewrite dict_mem_set, (Hreg ch reg Hg). apply orb_true_r.
  - unfold registered in *. rewrite ensure_creator_tracked in Hg.
    cbn [tracked_channels set_tracked_channels] in Hg.
    destruct (String.eqb_spec ch (Ctx.channel_id ctx)) as [->|Hne].
    + rewrite DictFacts.get_set_same in Hg. injection Hg as <-.
      cbn [Channel.guild_id Channel.creator_id].
      unfold Dict.mem. now rewrite ensure_creator_get.
    + rewrite DictFacts.get_set_other in Hg by exact Hne.
      apply mem_ensure_creator. cbn [creators set_tracked_channels].
      now apply (Hreg ch).
  - cbn [tracked_channels creators set_tracked_channels] in *.
    destruct Hdk as (Hnd & _).
    destruct (String.eqb_spec ch (Ctx.channel_id ctx)) as [->|Hne].
    + rewrite dict_get_del_same in Hg by exact Hnd. discriminate.
    + rewrite DictFacts.get_del_other in Hg by exact Hne. now apply (Hreg ch).
  - pose proof (marks_keys d d' Hm) as Hk. destruct Hm as (Ht & _).
    rewrite Ht in Hg. apply DictFacts.mem_keys. rewrite Hk.
    apply DictFacts.mem_keys. now apply (Hreg ch).
Qed.

Lemma reachable_registrations w d :
  reachable w -> file w = Some d ->
  distinct_keys d /\ registrations_have_records d.
Proof.
  intros Hr. revert d. revert w Hr.
  apply reachable_invariant; [|apply tidy_registrations_writes].
  split; [apply distinct_keys_empty | intros ch reg; discriminate].
Qed.

(** X21. In every state the bot can reach, the creator of a tracked
    channel has a record in the channel's server, so the "Never" default
    of [!channels] is never shown: the rows show the stored [last_posted],
    which for a creator who has not posted yet is [None].  The command
    reads the data file and writes nothing. *)
Theorem list_channels_never_shows_never :
  forall (get_channel : string -> option string) (ctx : Ctx.t) (e : env)
         (w : world) (d : snapshot),
    reachable w ->
    read_fails e = false ->
    file w = Some d ->
    exists shown,
      list_channels get_channel ctx e w = (Ret shown, logged (Load true) w)
      /\ forall rows row,
           shown = Some rows -> In row rows ->
           exists c, In c (map snd (creators d))
                     /\ ChannelRow.last_post row = Stored (Creator.last_posted c).
Proof.
  intros get_channel ctx e w d Hreach Hr Hf.
  destruct (reachable_registrations w d Hreach Hf) as [(Hnd & _) Hreg].
  unfold list_channels, bind. rewrite (load_data_ok e w d Hr Hf).
  set (guild_id := Guild.id (Ctx.guild ctx)).
  set (server_channels :=
         filter (fun ch => String.eqb (Channel.guild_id (snd ch)) guild_id)
           (tracked_channels d)).
  assert (Hrows : forall row,
             In row (map (fun ch =>
                       {| ChannelRow.channel_name :=
                            match get_channel (fst ch) with
                            | Some name => name
                            | None => "Unknown Channel"
                            end;
                          ChannelRow.creator_name := Channel.creator_name (snd ch);
                          ChannelRow.last_post :=
                            match Dict.get (make_key guild_id
                                              (Channel.creator_id (snd ch)))
                                    (creators d) with
                            | Some creator_data =>
                                Stored (Creator.last_posted creator_data)
                            | None => Never
                            end |}) server_channels) ->
             exists c, In c (map snd (creators d))
                       /\ ChannelRow.last_post row = Stored (Creator.last_posted c)).
  { intros row Hin. apply in_map_iff in Hin.
    destruct Hin as ([ch reg] & <- & Hin). cbn [fst snd ChannelRow.last_post].
    apply filter_In in Hin. destruct Hin as [Hin Hguild]. cbn [snd] in Hguild.
    apply String.eqb_eq in Hguild.
    pose proof (Hreg ch reg (DictFacts.In_get ch reg _ Hnd Hin)) as Hmem.
    rewrite Hguild in Hmem. unfold Dict.mem in Hmem.
    destruct (Dict.get (make_key guild_id (Channel.creator_id reg)) (creators d))
      as [c|] eqn:Hc; [|discriminate].
    exists c. split; [|reflexivity].
    apply in_map_iff. exists (make_key guild_id (Channel.creator_id reg), c).
    split; [reflexivity|]. now apply DictFacts.get_In. }
  destruct server_channels as [|ch0 rest] eqn:Hsc.
  - exists None. split; [reflexivity|]. discriminate.
  - eexists. split; [reflexivity|].
    intros rows row [= <-] Hin. now apply Hrows.
Qed.

Lemma list_channels_never_shows_never_witness :
  exists shown,
    list_channels (fun _ => None) ann_channel (calm 100) world_100
    = (Ret shown, logged (Load true) world_100)
    /\ forall rows row,
         shown = Some rows -> In row rows ->
         exists c, In c (map snd (creators (stored world_100)))
                   /\ ChannelRow.last_post row = Stored (Creator.last_posted c).
Proof.
  apply (list_channels_never_shows_never (fun _ => None) ann_channel (calm 100)
           world_100 (stored world_100)); try reflexivity.
  repeat apply reachable_step. apply reachable_initial.
Defined.

(** Right after the setup the row of ann's channel shows [None]. *)
Example channels_after_setup :
  fst (list_channels (fun _ => Some "ann-tiktok") ann_channel (calm 100) world_100)
  = Ret (Some [{| ChannelRow.channel_name := "ann-tiktok";
                  ChannelRow.creator_name := "ann";
                  ChannelRow.last_post := Stored None |}]).
Proof. vm_compute. reflexivity. Qed.

(* ================================================================== *)
(** ** The dashboard and the creators who have not posted *)

Lemma sorted_single str_lt x :
  sorted_by_last_posted str_lt [x] = Done [x].
Proof. reflexivity. Qed.

Lemma sorted_with_none str_lt items k c :
  (2 <= List.length items)%nat ->
  In (k, c) items -> Creator.last_posted c = None ->
  sorted_by_last_posted str_lt items = Failed TypeError.
Proof.
  intros Hlen Hin Hnone. unfold sorted_by_last_posted.
  replace (Nat.leb 2 (List.length items)) with true
    by (symmetry; now apply Nat.leb_le).
  replace (existsb _ items) with true; [reflexivity|].
  symmetry. apply existsb_exists. exists (k, c). split; [exact Hin|].
  cbn [snd]. now rewrite Hnone.
Qed.

Lemma dashboard_row_without_post k c d e w0 :
  read_fails e = false -> file w0 = Some d ->
  (forall s, In s (Dict.keys (post_log k d)) -> exists x, s = Ymd x) ->
  Creator.last_posted c = None ->
  fst (dashboard_row k c e w0) = Failed TypeError
  /\ file (snd (dashboard_row k c e w0)) = file w0.
Proof.
  intros Hr Hf0 Hwf Hnone.
  assert (Hgpp : exists a w', get_posts_in_period k 7 e w0 = (Ret a, w')
                              /\ file w' = file w0).
  { unfold post_log in Hwf.
    destruct (Dict.get k (posts d)) as [plog|] eqn:Hp.
    - eexists. eexists.
      rewrite (get_posts_in_period_present k 7 d plog e w0 Hr Hf0 Hp Hwf).
      split; reflexivity.
    - eexists. eexists.
      rewrite (get_posts_in_period_eq k 7 d e w0 Hr Hf0), Hp.
      split; reflexivity. }
  destruct Hgpp as (a & w' & Hgpp & Hfile).
  unfold dashboard_row, and_then, run_handler. rewrite Hgpp, Hnone.
  cbn [shows_never]. unfold datetime_now, failed. cbn [fst snd file].
  split; [reflexivity | exact Hfile].
Qed.

(** X22. In every state the bot can reach, [!dashboard] raises [TypeError]
    instead of answering as soon as one creator of the server has not
    posted yet, as is the case right after [!setup]: the stored
    [last_posted] is [None], which the sort compares when there are
    several creators and [strptime] refuses when there is one.  Nothing
    is written. *)
Theorem dashboard_fails_for_a_creator_without_post :
  forall (str_lt : date_str -> date_str -> bool) (ctx : Ctx.t) (e : env)
         (w : world) (d : snapshot) (k : string) (c : Creator.t),
    reachable w ->
    read_fails e = false ->
    file w = Some d ->
    In (k, c) (creators d) ->
    Creator.guild_id c = Guild.id (Ctx.guild ctx) ->
    Creator.last_posted c = None ->
    fst (dashboard str_lt ctx e w) = Failed TypeError
    /\ file (snd (dashboard str_lt ctx e w)) = file w.
Proof.
  intros str_lt ctx e w d k c Hreach Hr Hf Hin Hguild Hnone.
  remember (dashboard str_lt ctx e w) as r eqn:Hres.
  unfold dashboard, and_then at 1, run_handler at 1 in Hres.
  rewrite (load_data_ok e w d Hr Hf) in Hres.
  set (guild_id := Guild.id (Ctx.guild ctx)) in *.
  set (server_creators :=
         filter (fun kc => String.eqb (Creator.guild_id (snd kc)) guild_id)
           (creators d)) in *.
  assert (Hin' : In (k, c) server_creators).
  { apply filter_In. split; [exact Hin|]. cbn [snd]. now apply String.eqb_eq. }
  destruct server_creators as [|x0 rest] eqn:Hsc; [destruct Hin'|].
  unfold and_then at 1, run_handler at 1, datetime_now at 1 in Hres.
  cbn [logged ticks file log] in Hres.
  unfold and_then at 1 in Hres.
  destruct rest as [|x1 rest].
  - destruct Hin' as [->|[]].
    rewrite sorted_single in Hres. cbn [firstn dashboard_rows] in Hres.
    unfold and_then at 1 in Hres.
    destruct (reachable_counters_ok w d Hreach Hf k) as [Hwf _].
    unfold and_then at 1 in Hres.
    match type of Hres with
    | context [dashboard_row k c e ?w0] =>
        destruct (dashboard_row_without_post k c d e w0 Hr Hf Hwf Hnone)
          as [Hfail Hfile];
        destruct (dashboard_row k c e w0) as [o w1]
    end.
    cbn [fst snd file] in Hfail, Hfile. subst o r.
    split; [reflexivity | exact Hfile].
  - rewrite (sorted_with_none str_lt _ k c) in Hres;
      [|cbn [List.length]; lia | exact Hin' | exact Hnone].
    subst r. split; reflexivity.
Qed.

Lemma dashboard_fails_for_a_creator_without_post_witness :
  fst (dashboard by_day ann_channel (calm 100) world_100) = Failed TypeError
  /\ file (snd (dashboard by_day ann_channel (calm 100) world_100))
     = file world_100.
Proof.
  apply (dashboard_fails_for_a_creator_without_post by_day ann_channel
           (calm 100) world_100 (stored world_100) "10_77"
           (Creator.fresh "ann" "10" "Creators" "77" "500" (Ymd 100)));
    try reflexivity.
  - repeat apply reachable_step. apply reachable_initial.
  - left. reflexivity.
Defined.

(** Once ann has posted, the dashboard of day 106 shows her row. *)
Example dashboard_on_day_106 :
  fst (dashboard by_day ann_channel (calm 106) world_105)
  = Done (Some [{| DashboardRow.mark := PostedYesterday;
                   DashboardRow.name := "ann";
                   DashboardRow.week_posts := 4;
                   DashboardRow.current_streak := 1;
                   DashboardRow.last_posted := Some (Ymd 105) |}]).
Proof. vm_compute. reflexivity. Qed.

(* ================================================================== *)
(** ** Two messages, one day or two *)

(** X23. After a credited message, any further message of the same day in
    the same channel and server leaves the data file as it is: only the
    first qualifying message of a day counts. *)
Theorem second_message_of_the_day_changes_nothing :
  forall (D : Z) (message again : Message.t) (g : Guild.t)
         (channel_data : Channel.t) (d : snapshot) (e e2 : env) (w : world),
    Message.author_bot message = false ->
    Message.guild message = Some g ->
    read_fails e = false -> write_fails e = false ->
    file w = Some d ->
    Dict.get (Message.channel_id message) (tracked_channels d) = Some channel_data ->
    has_posted_keyword (Message.content message) = true ->
    on_day D e ->
    Dict.mem (Ymd D)
      (post_log (make_key (Guild.id g) (Channel.creator_id channel_data)) d)
      = false ->
    Message.guild again = Some g ->
    Message.channel_id again = Message.channel_id message ->
    on_day D e2 ->
    let w1 := after (OnMessage message) e w in
    file w1 <> file w
    /\ file (after (OnMessage again) e2 w1) = file w1.
Proof.
  intros D message again g cd d e e2 w Hbot Hg Hr Hwr Hf Hch Hkw Hday Hnew
         Hg2 Hch2 Hday2. cbv zeta. unfold after. cbn [step].
  set (key := make_key (Guild.id g) (Channel.creator_id cd)) in *.
  assert (Hnew' : Dict.mem (strftime (clock e (ticks w))) (post_log key d) = false)
    by (unfold strftime; now rewrite Hday).
  pose proof (on_message_credit_file message g cd d e w Hbot Hg Hr Hwr Hf Hch
                Hkw Hnew') as Hf1. fold key in Hf1.
  set (d1 := credited message g cd d (clock e (ticks w)) (clock e (S (ticks w)))
               (clock e (S (S (ticks w))))) in *.
  assert (Hin1 : Dict.mem (Ymd D) (post_log key d1) = true).
  { unfold d1. rewrite post_log_credited. fold key. rewrite String.eqb_refl.
    unfold credited_log. fold key. rewrite dict_mem_set.
    unfold strftime. rewrite Hday. cbn [keqb EqKey_date_str date_str_eqb].
    now rewrite Z.eqb_refl. }
  split.
  - rewrite Hf1, Hf. intros [= Heq].
    rewrite <- Heq in Hnew. rewrite Hin1 in Hnew. discriminate.
  - destruct (on_message_file again e2 (snd (on_message message e w)))
      as [Hs|(g2 & cd2 & _ & _ & _ & Hg2' & Hch2' & Hnew2 & _)]; [exact Hs|].
    exfalso. rewrite Hg2 in Hg2'. injection Hg2' as <-.
    unfold loaded in Hch2', Hnew2. rewrite Hf1 in Hch2', Hnew2.
    destruct (read_fails e2); [discriminate|].
    rewrite Hch2 in Hch2'. unfold d1 in Hch2' at 1.
    cbn [credited tracked_channels] in Hch2'. rewrite Hch in Hch2'.
    injection Hch2' as <-. fold key in Hnew2.
    unfold strftime in Hnew2. rewrite Hday2 in Hnew2.
    rewrite Hin1 in Hnew2. discriminate.
Qed.

Lemma second_message_of_the_day_changes_nothing_witness :
  let w1 := after (OnMessage (ann_posted 105)) (calm 105) world_103 in
  file w1 <> file world_103
  /\ file (after (OnMessage (ann_posted 104)) (at_noon 105 false false false) w1)
     = file w1.
Proof.
  apply (second_message_of_the_day_changes_nothing 105 (ann_posted 105)
           (ann_posted 104) creators_guild ann_registration (stored world_103)
           (calm 105) (at_noon 105 false false false) world_103);
    try reflexivity; apply on_day_at_noon.
Defined.


